(** * Visit lifecycle, treatment ledger and finance search of the
      healthcare backend, as a shallow embedding.

    Sources embedded here:
    - [models/Treatment.js]      (treatment schema and its pre-save hook)
    - [models/Visit.js]          (visit schema, [calculateTotalAmount],
                                  pre-save hook, [hasActiveVisit])
    - [controllers/visitController.js]   (the visit handlers)
    - [controllers/financeController.js] ([searchVisits], [updatePaymentStatus])
    - [middleware/visitValidation.js], [middleware/treatmentValidation.js],
      [middleware/validation.js]  (request validators)
    - [routes/visitRoutes.js], [routes/financeRoutes.js] (which validators
      run before which handler), [middleware/errorHandler.js] (the status
      an exception is answered with)

    A JavaScript [Number] is an IEEE-754 binary64 value: it is modelled by
    [spec_float] with the operations of [SpecFloat] at precision 53 and
    maximal exponent 1024 (round to nearest, ties to even). *)

From Stdlib Require Import ZArith List Bool String Ascii Lia Permutation Sorted.
From Stdlib Require Import Floats.SpecFloat.
From Stdlib Require Import QArith.
Import ListNotations.
Local Open Scope Z_scope.

(* ================================================================== *)
(** ** JavaScript numbers *)
(* ================================================================== *)

Module JSNumber.

Definition number := spec_float.

Definition prec : Z := 53.
Definition emax : Z := 1024.

(** [a + b] and [a * b] on Numbers. *)
Definition add (a b : number) : number := SFadd prec emax a b.
Definition mul (a b : number) : number := SFmul prec emax a b.
Definition div (a b : number) : number := SFdiv prec emax a b.

Definition zero : number := S754_zero false.
Definition NaN : number := S754_nan.

(** The Number denoted by an integer literal. *)
Definition ofZ (z : Z) : number := binary_normalize prec emax z 0 false.

(** The Number denoted by the decimal literal [m / 10^k]: the double
    nearest to the exact quotient (both operands are exact for the
    literals used in this development). *)
Definition ofDecimal (m : Z) (k : nat) : number :=
  div (ofZ m) (ofZ (10 ^ Z.of_nat k)).

(** [ToBoolean]: [NaN], [+0] and [-0] are falsy. *)
Definition truthy (x : number) : bool :=
  match x with
  | S754_nan | S754_zero _ => false
  | _ => true
  end.

(** [x || d] *)
Definition or_else (x d : number) : number := if truthy x then x else d.

(** [a >= b], [a <= b], [a < b]: false as soon as one side is [NaN]. *)
Definition geb (a b : number) : bool := SFleb b a.
Definition leb (a b : number) : bool := SFleb a b.
Definition ltb (a b : number) : bool := SFltb a b.

(** Structural equality of the representation (distinguishes [+0] and
    [-0], identifies [NaN] with itself). *)
Definition same (a b : number) : bool :=
  match a, b with
  | S754_zero s, S754_zero s' => Bool.eqb s s'
  | S754_infinity s, S754_infinity s' => Bool.eqb s s'
  | S754_nan, S754_nan => true
  | S754_finite s m e, S754_finite s' m' e' =>
      Bool.eqb s s' && Pos.eqb m m' && Z.eqb e e'
  | _, _ => false
  end.

Definition is_finite (x : number) : bool :=
  match x with
  | S754_zero _ | S754_finite _ _ _ => true
  | _ => false
  end.

(** The integer a Number denotes, when it denotes one. *)
Definition toZ (x : number) : option Z :=
  match x with
  | S754_zero _ => Some 0
  | S754_finite s m e =>
      let v := if s then Z.neg m else Z.pos m in
      match e with
      | Z0 => Some v
      | Zpos p => Some (v * 2 ^ Zpos p)
      | Zneg p => if (Z.pos m mod 2 ^ Zpos p =? 0)
                  then Some (v / 2 ^ Zpos p) else None
      end
  | _ => None
  end.

(** The exact rational value of a finite Number. *)
Definition toQ (x : number) : option Q :=
  match x with
  | S754_zero _ => Some (0 # 1)%Q
  | S754_finite s m e =>
      let v := if s then Z.neg m else Z.pos m in
      match e with
      | Z0 => Some (v # 1)%Q
      | Zpos p => Some ((v * 2 ^ Zpos p) # 1)%Q
      | Zneg p => Some (v # (2 ^ p)%positive)%Q
      end
  | _ => None
  end.

(** Non-negative Numbers other than [-0]. *)
Definition nonneg (x : number) : bool :=
  match x with
  | S754_zero false | S754_infinity false | S754_finite false _ _ => true
  | _ => false
  end.

End JSNumber.

Import JSNumber.

(* ================================================================== *)
(** ** Data model ([models/Treatment.js], [models/Visit.js], [models/User.js]) *)
(* ================================================================== *)

(** An ObjectId is a 96-bit value; ids are ordered as unsigned integers. *)
Definition ObjectId := N.

(** A [Date] is a number of milliseconds since the epoch. *)
Definition Date := Z.

Inductive Status := scheduled | in_progress | completed | cancelled.

Inductive PaymentStatus := pending | partial | paid.

Inductive Role := role_patient | role_doctor | role_finance.

Definition status_name (s : Status) : string :=
  match s with
  | scheduled => "scheduled"
  | in_progress => "in_progress"
  | completed => "completed"
  | cancelled => "cancelled"
  end.

Definition paymentStatus_name (p : PaymentStatus) : string :=
  match p with
  | pending => "pending"
  | partial => "partial"
  | paid => "paid"
  end.

Definition status_eqb (a b : Status) : bool :=
  match a, b with
  | scheduled, scheduled | in_progress, in_progress
  | completed, completed | cancelled, cancelled => true
  | _, _ => false
  end.

Definition paymentStatus_eqb (a b : PaymentStatus) : bool :=
  match a, b with
  | pending, pending | partial, partial | paid, paid => true
  | _, _ => false
  end.

(** [treatmentSchema].  [category] stays a string: the handlers store
    what the request carries and the schema's [enum] validator judges it
    on save. *)
Record Treatment := {
  t_id : ObjectId;
  name : string;
  description : option string;
  quantity : number;
  unitPrice : number;
  totalPrice : number;
  category : string
}.

(** [visitSchema]. *)
Record Visit := {
  _id : ObjectId;
  patient : ObjectId;
  doctor : ObjectId;
  status : Status;
  scheduledDate : Date;
  startTime : option Date;
  endTime : option Date;
  chiefComplaint : option string;
  diagnosis : option string;
  notes : option string;
  treatments : list Treatment;
  totalAmount : number;
  paymentStatus : PaymentStatus;
  createdAt : Date;
  updatedAt : Date
}.

(** The part of [userSchema] that the visit and finance code reads. *)
Record User := {
  u_id : ObjectId;
  u_name : string;
  u_role : Role;
  isActive : bool
}.

(** The record store: the two collections, each in its natural order. *)
Record Db := {
  visits : list Visit;
  users : list User
}.

(** *** Field updates *)

Definition with_totalPrice (p : number) (t : Treatment) : Treatment :=
  {| t_id := t_id t; name := name t; description := description t;
     quantity := quantity t; unitPrice := unitPrice t; totalPrice := p;
     category := category t |}.

Definition with_treatments (ts : list Treatment) (v : Visit) : Visit :=
  {| _id := _id v; patient := patient v; doctor := doctor v;
     status := status v; scheduledDate := scheduledDate v;
     startTime := startTime v; endTime := endTime v;
     chiefComplaint := chiefComplaint v; diagnosis := diagnosis v;
     notes := notes v; treatments := ts; totalAmount := totalAmount v;
     paymentStatus := paymentStatus v; createdAt := createdAt v;
     updatedAt := updatedAt v |}.

Definition with_totalAmount (a : number) (v : Visit) : Visit :=
  {| _id := _id v; patient := patient v; doctor := doctor v;
     status := status v; scheduledDate := scheduledDate v;
     startTime := startTime v; endTime := endTime v;
     chiefComplaint := chiefComplaint v; diagnosis := diagnosis v;
     notes := notes v; treatments := treatments v; totalAmount := a;
     paymentStatus := paymentStatus v; createdAt := createdAt v;
     updatedAt := updatedAt v |}.

Definition with_status (s : Status) (v : Visit) : Visit :=
  {| _id := _id v; patient := patient v; doctor := doctor v;
     status := s; scheduledDate := scheduledDate v;
     startTime := startTime v; endTime := endTime v;
     chiefComplaint := chiefComplaint v; diagnosis := diagnosis v;
     notes := notes v; treatments := treatments v;
     totalAmount := totalAmount v; paymentStatus := paymentStatus v;
     createdAt := createdAt v; updatedAt := updatedAt v |}.

Definition with_startTime (d : option Date) (v : Visit) : Visit :=
  {| _id := _id v; patient := patient v; doctor := doctor v;
     status := status v; scheduledDate := scheduledDate v;
     startTime := d; endTime := endTime v;
     chiefComplaint := chiefComplaint v; diagnosis := diagnosis v;
     notes := notes v; treatments := treatments v;
     totalAmount := totalAmount v; paymentStatus := paymentStatus v;
     createdAt := createdAt v; updatedAt := updatedAt v |}.

Definition with_endTime (d : option Date) (v : Visit) : Visit :=
  {| _id := _id v; patient := patient v; doctor := doctor v;
     status := status v; scheduledDate := scheduledDate v;
     startTime := startTime v; endTime := d;
     chiefComplaint := chiefComplaint v; diagnosis := diagnosis v;
     notes := notes v; treatments := treatments v;
     totalAmount := totalAmount v; paymentStatus := paymentStatus v;
     createdAt := createdAt v; updatedAt := updatedAt v |}.

Definition with_paymentStatus (p : PaymentStatus) (v : Visit) : Visit :=
  {| _id := _id v; patient := patient v; doctor := doctor v;
     status := status v; scheduledDate := scheduledDate v;
     startTime := startTime v; endTime := endTime v;
     chiefComplaint := chiefComplaint v; diagnosis := diagnosis v;
     notes := notes v; treatments := treatments v;
     totalAmount := totalAmount v; paymentStatus := p;
     createdAt := createdAt v; updatedAt := updatedAt v |}.

Definition with_updatedAt (d : Date) (v : Visit) : Visit :=
  {| _id := _id v; patient := patient v; doctor := doctor v;
     status := status v; scheduledDate := scheduledDate v;
     startTime := startTime v; endTime := endTime v;
     chiefComplaint := chiefComplaint v; diagnosis := diagnosis v;
     notes := notes v; treatments := treatments v;
     totalAmount := totalAmount v; paymentStatus := paymentStatus v;
     createdAt := createdAt v; updatedAt := d |}.

Definition with_createdAt (d : Date) (v : Visit) : Visit :=
  {| _id := _id v; patient := patient v; doctor := doctor v;
     status := status v; scheduledDate := scheduledDate v;
     startTime := startTime v; endTime := endTime v;
     chiefComplaint := chiefComplaint v; diagnosis := diagnosis v;
     notes := notes v; treatments := treatments v;
     totalAmount := totalAmount v; paymentStatus := paymentStatus v;
     createdAt := d; updatedAt := updatedAt v |}.

Definition with_chiefComplaint (s : option string) (v : Visit) : Visit :=
  {| _id := _id v; patient := patient v; doctor := doctor v;
     status := status v; scheduledDate := scheduledDate v;
     startTime := startTime v; endTime := endTime v; chiefComplaint := s;
     diagnosis := diagnosis v; notes := notes v;
     treatments := treatments v; totalAmount := totalAmount v;
     paymentStatus := paymentStatus v; createdAt := createdAt v;
     updatedAt := updatedAt v |}.

Definition with_diagnosis (s : option string) (v : Visit) : Visit :=
  {| _id := _id v; patient := patient v; doctor := doctor v;
     status := status v; scheduledDate := scheduledDate v;
     startTime := startTime v; endTime := endTime v;
     chiefComplaint := chiefComplaint v; diagnosis := s;
     notes := notes v; treatments := treatments v;
     totalAmount := totalAmount v; paymentStatus := paymentStatus v;
     createdAt := createdAt v; updatedAt := updatedAt v |}.

Definition with_notes (s : option string) (v : Visit) : Visit :=
  {| _id := _id v; patient := patient v; doctor := doctor v;
     status := status v; scheduledDate := scheduledDate v;
     startTime := startTime v; endTime := endTime v;
     chiefComplaint := chiefComplaint v; diagnosis := diagnosis v;
     notes := s; treatments := treatments v;
     totalAmount := totalAmount v; paymentStatus := paymentStatus v;
     createdAt := createdAt v; updatedAt := updatedAt v |}.

Definition with_visits (vs : list Visit) (db : Db) : Db :=
  {| visits := vs; users := users db |}.

(* ================================================================== *)
(** ** Strings of the request layer *)
(* ================================================================== *)

(** Strings are sequences of bytes; lengths are counted in bytes.

    ASCII white space, as removed by [trim]. *)
Definition is_space (c : ascii) : bool :=
  match nat_of_ascii c with
  | 9%nat | 10%nat | 11%nat | 12%nat | 13%nat | 32%nat => true
  | _ => false
  end.

Fixpoint trim_start (s : string) : string :=
  match s with
  | EmptyString => EmptyString
  | String c r => if is_space c then trim_start r else s
  end.

Definition reverse (s : string) : string :=
  string_of_list_ascii (rev (list_ascii_of_string s)).

Definition trim (s : string) : string :=
  reverse (trim_start (reverse (trim_start s))).

(** [s || d] on an optional string: [undefined] and [""] are falsy. *)
Definition str_or_else (s : option string) (d : string) : string :=
  match s with
  | Some (String c r) => String c r
  | _ => d
  end.

Definition option_eqb {A} (eqb : A -> A -> bool) (a b : option A) : bool :=
  match a, b with
  | None, None => true
  | Some x, Some y => eqb x y
  | _, _ => false
  end.

(* ================================================================== *)
(** ** Outcomes *)
(* ================================================================== *)

(** The error kinds a handler answers with.  Every kind but
    [NotFoundError] (404), [AuthorizationError] (403) and [StoreError]
    (500) is sent with status 400; the kinds are told apart by the
    message the source sends:
    - [ValidationError]: "Validation failed" from [validate], "Invalid
      payment status. ..." and "Invalid visit ID format" from the finance
      handlers, and a schema validation failure on [save] (which
      [errorHandler] answers with 400);
    - [InvalidTransitionError]: "Cannot ... visit with status: ...",
      "Visit is already completed", "Cannot complete a cancelled visit",
      "Cannot cancel a completed visit", "Visit is already cancelled";
    - [ConflictError]: "This doctor already has an active visit
      scheduled. ...". *)
Inductive Error :=
  | ValidationError
  | NotFoundError
  | InvalidTransitionError
  | ConflictError
  | AuthorizationError
  | StoreError.

Definition http_status (e : Error) : Z :=
  match e with
  | NotFoundError => 404
  | AuthorizationError => 403
  | StoreError => 500
  | ValidationError | InvalidTransitionError | ConflictError => 400
  end.

(** What a visit handler sends back: the HTTP status and the visit read
    back from the store, or an error.  (The source also populates the
    patient and doctor references of the visit in the body; that touches
    no stored state and is left out.) *)
Inductive Response :=
  | Success (code : Z) (visit : option Visit)
  | Failure (e : Error).

(* ================================================================== *)
(** ** Documents and [save] *)
(* ================================================================== *)

(** A document in memory: the visit, whether it is new, and which paths
    have been modified since it was loaded.  [isModified("treatments")]
    is [modifiedTreatments]; a path counts as modified when a value that
    differs from the one it replaces is assigned below it, or when an
    array mutator ([push], [pull]) is applied to it. *)
Record Document := {
  doc : Visit;
  isNew : bool;
  modifiedTreatments : bool;
  modifiedOther : bool
}.

Definition hydrate (v : Visit) : Document :=
  {| doc := v; isNew := false;
     modifiedTreatments := false; modifiedOther := false |}.

Definition isModified (d : Document) : bool :=
  modifiedTreatments d || modifiedOther d.

(** Assignment below [treatments] and to another path. *)
Definition set_treatments (changed : bool) (ts : list Treatment)
    (d : Document) : Document :=
  {| doc := with_treatments ts (doc d); isNew := isNew d;
     modifiedTreatments := modifiedTreatments d || changed;
     modifiedOther := modifiedOther d |}.

Definition set_path (changed : bool) (f : Visit -> Visit)
    (d : Document) : Document :=
  {| doc := f (doc d); isNew := isNew d;
     modifiedTreatments := modifiedTreatments d;
     modifiedOther := modifiedOther d || changed |}.

(** [visitSchema.methods.calculateTotalAmount] *)
Definition sumTotalPrice (ts : list Treatment) : number :=
  fold_left (fun sum treatment => add sum (or_else (totalPrice treatment) zero))
            ts zero.

Definition calculateTotalAmount (d : Document) : Document :=
  let total := sumTotalPrice (treatments (doc d)) in
  set_path (negb (same (totalAmount (doc d)) total)) (with_totalAmount total) d.

(** *** Schema validation (run by [save] before any pre-save hook) *)

Definition categories : list string :=
  ["consultation"; "medication"; "procedure"; "lab_test"; "imaging"; "other"]%string.

Definition isIn (s : string) (l : list string) : bool :=
  existsb (String.eqb s) l.

Definition validateTreatment (t : Treatment) : bool :=
  negb (String.eqb (name t) "")
  && geb (quantity t) (ofZ 1)
  && geb (unitPrice t) zero
  && geb (totalPrice t) zero
  && isIn (category t) categories.

Definition maxlength (n : nat) (s : option string) : bool :=
  match s with
  | None => true
  | Some s => Nat.leb (String.length s) n
  end.

Definition validateVisit (v : Visit) : bool :=
  maxlength 1000 (chiefComplaint v)
  && maxlength 2000 (diagnosis v)
  && maxlength 5000 (notes v)
  && forallb validateTreatment (treatments v)
  && geb (totalAmount v) zero.

(** *** Pre-save hooks *)

(** [treatmentSchema.pre("save")] *)
Definition treatmentPreSave (t : Treatment) : Treatment :=
  with_totalPrice (mul (unitPrice t) (quantity t)) t.

Definition totalPriceStale (t : Treatment) : bool :=
  negb (same (totalPrice t) (mul (unitPrice t) (quantity t))).

(** The hook of every treatment of the visit, run before the visit's own. *)
Definition treatmentsPreSave (d : Document) : Document :=
  set_treatments (existsb totalPriceStale (treatments (doc d)))
                 (map treatmentPreSave (treatments (doc d))) d.

(** The [timestamps: true] hook of the visit schema: a new document gets
    both stamps, a modified one a new [updatedAt]. *)
Definition timestampsPreSave (now : Date) (d : Document) : Document :=
  if isNew d
  then {| doc := with_updatedAt now (with_createdAt now (doc d));
          isNew := isNew d;
          modifiedTreatments := modifiedTreatments d;
          modifiedOther := modifiedOther d |}
  else if isModified d
  then {| doc := with_updatedAt now (doc d); isNew := isNew d;
          modifiedTreatments := modifiedTreatments d;
          modifiedOther := modifiedOther d |}
  else d.

(** [visitSchema.pre("save")] *)
Definition visitPreSave (d : Document) : Document :=
  if modifiedTreatments d then calculateTotalAmount d else d.

(** *** Writing to the collection *)

Fixpoint replaceOne (v : Visit) (vs : list Visit) : list Visit :=
  match vs with
  | [] => []
  | w :: rest =>
      if N.eqb (_id w) (_id v) then v :: rest else w :: replaceOne v rest
  end.

Definition persist (d : Document) (db : Db) : Db :=
  if isNew d then with_visits (visits db ++ [doc d]) db
  else with_visits (replaceOne (doc d) (visits db)) db.

(** [document.save()]: validation, then the treatments' hooks, then the
    visit's hooks in the order they were registered (timestamps, then
    the total-amount hook), then the write. *)
Definition save (now : Date) (d : Document) (db : Db) : Error + Db :=
  if validateVisit (doc d)
  then inr (persist (visitPreSave (timestampsPreSave now (treatmentsPreSave d))) db)
  else inl ValidationError.

(** *** Queries *)

Definition findById (id : ObjectId) (db : Db) : option Visit :=
  find (fun v => N.eqb (_id v) id) (visits db).

(** [Visit.findOne({ _id: id, doctor: doctorId })] *)
Definition findOneOfDoctor (id doctorId : ObjectId) (db : Db) : option Visit :=
  find (fun v => N.eqb (_id v) id && N.eqb (doctor v) doctorId) (visits db).

(** [Visit.findOne({ _id: id, patient: patientId })] *)
Definition findOneOfPatient (id patientId : ObjectId) (db : Db) : option Visit :=
  find (fun v => N.eqb (_id v) id && N.eqb (patient v) patientId) (visits db).

(** The tail shared by the handlers: save, read the visit back, answer. *)
Definition saveAndRespond (code : Z) (now : Date) (d : Document) (db : Db)
    : Response * Db :=
  match save now d db with
  | inl e => (Failure e, db)
  | inr db' => (Success code (findById (_id (doc d)) db'), db')
  end.

(* ================================================================== *)
(** ** Treatment ledger ([controllers/visitController.js]) *)
(* ================================================================== *)

(** The fields of a treatment request body, as decoded from JSON;
    [None] is [undefined].  [b_totalPrice] is a field a client may send
    and that no handler reads. *)
Record TreatmentBody := {
  b_name : option string;
  b_description : option string;
  b_quantity : option number;
  b_unitPrice : option number;
  b_category : option string;
  b_totalPrice : option number
}.

(** [ToNumber]: [undefined] becomes [NaN]. *)
Definition toNumber (x : option number) : number :=
  match x with
  | Some n => n
  | None => NaN
  end.

Definition terminal (s : Status) : bool :=
  match s with
  | completed | cancelled => true
  | _ => false
  end.

(** [visit.treatments.push(...)]: the array mutator marks the path. *)
Definition push (t : Treatment) (d : Document) : Document :=
  set_treatments true (treatments (doc d) ++ [t]) d.

(** [visit.treatments.pull(treatmentId)] *)
Definition pull (treatmentId : ObjectId) (d : Document) : Document :=
  set_treatments true
    (filter (fun t => negb (N.eqb (t_id t) treatmentId)) (treatments (doc d))) d.

(** [visit.treatments.id(treatmentId)] *)
Definition treatmentById (treatmentId : ObjectId) (ts : list Treatment)
    : option Treatment :=
  find (fun t => N.eqb (t_id t) treatmentId) ts.

Definition treatment_same (a b : Treatment) : bool :=
  N.eqb (t_id a) (t_id b)
  && String.eqb (name a) (name b)
  && option_eqb String.eqb (description a) (description b)
  && same (quantity a) (quantity b)
  && same (unitPrice a) (unitPrice b)
  && same (totalPrice a) (totalPrice b)
  && String.eqb (category a) (category b).

(** The assignments of [updateTreatment] on the treatment found: each
    field the body provides, then the recomputed [totalPrice].  The
    schema's [trim] setter applies to the two strings. *)
Definition assignTreatment (b : TreatmentBody) (t : Treatment) : Treatment :=
  let t' :=
    {| t_id := t_id t;
       name := match b_name b with Some n => trim n | None => name t end;
       description := match b_description b with
                      | Some s => Some (trim s)
                      | None => description t
                      end;
       quantity := match b_quantity b with Some q => q | None => quantity t end;
       unitPrice := match b_unitPrice b with Some u => u | None => unitPrice t end;
       totalPrice := totalPrice t;
       category := match b_category b with Some c => c | None => category t end |}
  in with_totalPrice (mul (unitPrice t') (quantity t')) t'.

(** The treatment with the given id (the first one) replaced. *)
Fixpoint updateById (treatmentId : ObjectId) (f : Treatment -> Treatment)
    (ts : list Treatment) : list Treatment :=
  match ts with
  | [] => []
  | t :: rest =>
      if N.eqb (t_id t) treatmentId then f t :: rest
      else t :: updateById treatmentId f rest
  end.

(** [addTreatment]: [fresh] is the id the driver gives the new
    subdocument, [now] the time of the save. *)
Definition addTreatment (now : Date) (fresh : ObjectId)
    (id doctorId : ObjectId) (body : TreatmentBody) (db : Db)
    : Response * Db :=
  match findOneOfDoctor id doctorId db with
  | None => (Failure NotFoundError, db)
  | Some visit =>
      if terminal (status visit) then (Failure InvalidTransitionError, db)
      else
        let qty := match b_quantity body with
                   | Some q => or_else q (ofZ 1)
                   | None => ofZ 1
                   end in
        let unitPrice := toNumber (b_unitPrice body) in
        let totalPrice := mul unitPrice qty in
        let d := push {| t_id := fresh;
                         name := match b_name body with
                                 | Some n => trim n
                                 | None => ""%string
                                 end;
                         description := option_map trim (b_description body);
                         quantity := qty;
                         unitPrice := unitPrice;
                         totalPrice := totalPrice;
                         category := str_or_else (b_category body) "other" |}
                      (hydrate visit) in
        saveAndRespond 201 now (calculateTotalAmount d) db
  end.

(** [updateTreatment] *)
Definition updateTreatment (now : Date) (id treatmentId doctorId : ObjectId)
    (body : TreatmentBody) (db : Db) : Response * Db :=
  match findOneOfDoctor id doctorId db with
  | None => (Failure NotFoundError, db)
  | Some visit =>
      if terminal (status visit) then (Failure InvalidTransitionError, db)
      else
        match treatmentById treatmentId (treatments visit) with
        | None => (Failure NotFoundError, db)
        | Some treatment =>
            let treatment' := assignTreatment body treatment in
            let d := set_treatments
                       (negb (treatment_same treatment treatment'))
                       (updateById treatmentId (fun _ => treatment')
                                   (treatments visit))
                       (hydrate visit) in
            saveAndRespond 200 now (calculateTotalAmount d) db
        end
  end.

(** [deleteTreatment] *)
Definition deleteTreatment (now : Date) (id treatmentId doctorId : ObjectId)
    (db : Db) : Response * Db :=
  match findOneOfDoctor id doctorId db with
  | None => (Failure NotFoundError, db)
  | Some visit =>
      if terminal (status visit) then (Failure InvalidTransitionError, db)
      else
        let d := pull treatmentId (hydrate visit) in
        saveAndRespond 200 now (calculateTotalAmount d) db
  end.

(** *** Request validators ([middleware/treatmentValidation.js]) *)

(** [isInt({ min: 1 })] on a Number: its decimal rendering is a plain
    integer (so it is below 1e21) and it is at least 1. *)
Definition isIntMin1 (q : number) : bool :=
  match toZ q with
  | Some z => (1 <=? z) && (z <? 10 ^ 21)
  | None => false
  end.

(** [isFloat({ min: 0 })] on a Number: finite and at least 0. *)
Definition isFloatMin0 (u : number) : bool :=
  is_finite u && geb u zero.

Definition optional {A} (check : A -> bool) (x : option A) : bool :=
  match x with
  | None => true
  | Some a => check a
  end.

Definition notEmpty (s : string) : bool := negb (String.eqb s "").

(** The sanitizers of a chain rewrite the body: [trim] on [name] (an
    absent name becomes the empty string) and on [description]. *)
Definition addTreatmentValidation (b : TreatmentBody) : Error + TreatmentBody :=
  let name' := trim (match b_name b with Some n => n | None => ""%string end) in
  if notEmpty name'
     && optional isIntMin1 (b_quantity b)
     && match b_unitPrice b with Some u => isFloatMin0 u | None => false end
     && optional (fun c => isIn c categories) (b_category b)
  then inr {| b_name := Some name';
              b_description := option_map trim (b_description b);
              b_quantity := b_quantity b;
              b_unitPrice := b_unitPrice b;
              b_category := b_category b;
              b_totalPrice := b_totalPrice b |}
  else inl ValidationError.

Definition updateTreatmentValidation (b : TreatmentBody) : Error + TreatmentBody :=
  if optional (fun n => notEmpty (trim n)) (b_name b)
     && optional isIntMin1 (b_quantity b)
     && optional isFloatMin0 (b_unitPrice b)
     && optional (fun c => isIn c categories) (b_category b)
  then inr {| b_name := option_map trim (b_name b);
              b_description := option_map trim (b_description b);
              b_quantity := b_quantity b;
              b_unitPrice := b_unitPrice b;
              b_category := b_category b;
              b_totalPrice := b_totalPrice b |}
  else inl ValidationError.

(** The routes of [routes/visitRoutes.js]: validators, then handler. *)
Definition postTreatment (now : Date) (fresh id doctorId : ObjectId)
    (body : TreatmentBody) (db : Db) : Response * Db :=
  match addTreatmentValidation body with
  | inl e => (Failure e, db)
  | inr body' => addTreatment now fresh id doctorId body' db
  end.

Definition putTreatment (now : Date) (id treatmentId doctorId : ObjectId)
    (body : TreatmentBody) (db : Db) : Response * Db :=
  match updateTreatmentValidation body with
  | inl e => (Failure e, db)
  | inr body' => updateTreatment now id treatmentId doctorId body' db
  end.

(* ================================================================== *)
(** ** Visit lifecycle ([controllers/visitController.js]) *)
(* ================================================================== *)

(** The body of [POST /api/visits], ids and dates decoded; [None] is an
    absent or malformed field. *)
Record VisitBody := {
  b_doctorId : option ObjectId;
  b_scheduledDate : option Date;
  b_chiefComplaint : option string
}.

(** [createVisitValidation] ([middleware/visitValidation.js]): the
    custom check throws when [date < now]. *)
Definition createVisitValidation (now : Date) (b : VisitBody) : Error + VisitBody :=
  match b_doctorId b, b_scheduledDate b with
  | Some _, Some date =>
      if date <? now then inl ValidationError
      else if optional (fun c => Nat.leb (String.length (trim c)) 1000)
                       (b_chiefComplaint b)
      then inr {| b_doctorId := b_doctorId b;
                  b_scheduledDate := b_scheduledDate b;
                  b_chiefComplaint := option_map trim (b_chiefComplaint b) |}
      else inl ValidationError
  | _, _ => inl ValidationError
  end.

(** [User.findOne({ _id: doctorId, role: "doctor", isActive: true })] *)
Definition findActiveDoctor (doctorId : ObjectId) (db : Db) : option User :=
  find (fun u => N.eqb (u_id u) doctorId
                 && match u_role u with role_doctor => true | _ => false end
                 && isActive u)
       (users db).

(** [visitSchema.statics.hasActiveVisit] *)
Definition hasActiveVisit (doctorId : ObjectId) (db : Db) : bool :=
  match find (fun v => N.eqb (doctor v) doctorId
                       && match status v with
                          | scheduled | in_progress => true
                          | _ => false
                          end)
             (visits db) with
  | Some _ => true
  | None => false
  end.

(** [new Visit({ patient, doctor, scheduledDate, chiefComplaint,
    status: "scheduled" })] with the schema's defaults; the two stamps
    are set when the document is saved. *)
Definition newVisit (fresh patientId doctorId : ObjectId)
    (date : Date) (complaint : option string) : Document :=
  {| doc := {| _id := fresh; patient := patientId; doctor := doctorId;
               status := scheduled; scheduledDate := date;
               startTime := None; endTime := None;
               chiefComplaint := option_map trim complaint;
               diagnosis := None; notes := None;
               treatments := []; totalAmount := zero;
               paymentStatus := pending;
               createdAt := 0; updatedAt := 0 |};
     isNew := true; modifiedTreatments := false; modifiedOther := true |}.

(** [createVisit]; [patientId] is [req.user._id]. *)
Definition createVisit (now : Date) (fresh patientId : ObjectId)
    (body : VisitBody) (db : Db) : Response * Db :=
  match match b_doctorId body with
        | Some doctorId =>
            option_map (fun _ => doctorId) (findActiveDoctor doctorId db)
        | None => None
        end with
  | None => (Failure NotFoundError, db)
  | Some doctorId =>
      if hasActiveVisit doctorId db then (Failure ConflictError, db)
      else
        match b_scheduledDate body with
        | None => (Failure ValidationError, db)
        | Some date =>
            saveAndRespond 201 now
              (newVisit fresh patientId doctorId date (b_chiefComplaint body)) db
        end
  end.

(** The route: validators, then handler. *)
Definition postVisit (now : Date) (fresh patientId : ObjectId)
    (body : VisitBody) (db : Db) : Response * Db :=
  match createVisitValidation now body with
  | inl e => (Failure e, db)
  | inr body' => createVisit now fresh patientId body' db
  end.

(** [startVisit] *)
Definition startVisit (now : Date) (id doctorId : ObjectId) (db : Db)
    : Response * Db :=
  match findOneOfDoctor id doctorId db with
  | None => (Failure NotFoundError, db)
  | Some visit =>
      if negb (status_eqb (status visit) scheduled)
      then (Failure InvalidTransitionError, db)
      else
        let d := set_path (negb (status_eqb (status visit) in_progress))
                          (with_status in_progress) (hydrate visit) in
        let d := set_path (negb (option_eqb Z.eqb (startTime visit) (Some now)))
                          (with_startTime (Some now)) d in
        saveAndRespond 200 now d db
  end.

(** The body of [PUT /api/visits/:id]; [None] is [undefined]. *)
Record ClinicalBody := {
  b_diagnosis : option string;
  b_notes : option string;
  b_complaint : option string
}.

(** [field = value] for a text field of the visit, through the schema's
    [trim] setter. *)
Definition assignText (get : Visit -> option string)
    (set : option string -> Visit -> Visit) (value : option string)
    (d : Document) : Document :=
  match value with
  | Some s =>
      set_path (negb (option_eqb String.eqb (get (doc d)) (Some (trim s))))
               (set (Some (trim s))) d
  | None => d
  end.

(** [updateVisit] *)
Definition updateVisit (now : Date) (id doctorId : ObjectId)
    (body : ClinicalBody) (db : Db) : Response * Db :=
  match findOneOfDoctor id doctorId db with
  | None => (Failure NotFoundError, db)
  | Some visit =>
      if terminal (status visit) then (Failure InvalidTransitionError, db)
      else
        let d := assignText diagnosis with_diagnosis (b_diagnosis body)
                            (hydrate visit) in
        let d := assignText notes with_notes (b_notes body) d in
        let d := assignText chiefComplaint with_chiefComplaint
                            (b_complaint body) d in
        saveAndRespond 200 now d db
  end.

(** [completeVisit] *)
Definition completeVisit (now : Date) (id doctorId : ObjectId) (db : Db)
    : Response * Db :=
  match findOneOfDoctor id doctorId db with
  | None => (Failure NotFoundError, db)
  | Some visit =>
      if status_eqb (status visit) completed
      then (Failure InvalidTransitionError, db)
      else if status_eqb (status visit) cancelled
      then (Failure InvalidTransitionError, db)
      else
        let d := set_path (negb (status_eqb (status visit) completed))
                          (with_status completed) (hydrate visit) in
        let d := set_path (negb (option_eqb Z.eqb (endTime visit) (Some now)))
                          (with_endTime (Some now)) d in
        saveAndRespond 200 now d db
  end.

(** [cancelVisit]; [userId] and [role] are those of [req.user]. *)
Definition cancelVisit (now : Date) (id userId : ObjectId) (role : Role)
    (db : Db) : Response * Db :=
  match match role with
        | role_patient => Some (findOneOfPatient id userId db)
        | role_doctor => Some (findOneOfDoctor id userId db)
        | role_finance => None
        end with
  | None => (Failure AuthorizationError, db)
  | Some None => (Failure NotFoundError, db)
  | Some (Some visit) =>
      if status_eqb (status visit) completed
      then (Failure InvalidTransitionError, db)
      else if status_eqb (status visit) cancelled
      then (Failure InvalidTransitionError, db)
      else
        let d := set_path (negb (status_eqb (status visit) cancelled))
                          (with_status cancelled) (hydrate visit) in
        saveAndRespond 200 now d db
  end.

(* ================================================================== *)
(** ** Payment status ([controllers/financeController.js]) *)
(* ================================================================== *)

(** [["pending", "partial", "paid"].includes(paymentStatus)], with the
    value it names. *)
Definition parsePaymentStatus (s : option string) : option PaymentStatus :=
  match s with
  | None => None
  | Some s =>
      if String.eqb s "pending" then Some pending
      else if String.eqb s "partial" then Some partial
      else if String.eqb s "paid" then Some paid
      else None
  end.

(** [updatePaymentStatus]; the body's [paymentStatus] as sent. *)
Definition updatePaymentStatus (now : Date) (id : ObjectId)
    (paymentStatus' : option string) (db : Db) : Response * Db :=
  match parsePaymentStatus paymentStatus' with
  | None => (Failure ValidationError, db)
  | Some p =>
      match findById id db with
      | None => (Failure NotFoundError, db)
      | Some visit =>
          let d := set_path (negb (paymentStatus_eqb (paymentStatus visit) p))
                            (with_paymentStatus p) (hydrate visit) in
          saveAndRespond 200 now d db
      end
  end.

(* ================================================================== *)
(** ** Finance search ([controllers/financeController.js], [searchVisits]) *)
(* ================================================================== *)

(** *** ObjectId strings *)

Definition hexDigit (c : ascii) : option N :=
  (let n := N_of_ascii c in
   if (48 <=? n) && (n <=? 57) then Some (n - 48)
   else if (97 <=? n) && (n <=? 102) then Some (n - 87)
   else if (65 <=? n) && (n <=? 70) then Some (n - 55)
   else None)%N.

Fixpoint parseHex (s : string) (acc : N) : option N :=
  match s with
  | EmptyString => Some acc
  | String c r =>
      match hexDigit c with
      | Some d => parseHex r (16 * acc + d)
      | None => None
      end
  end%N.

(** The id a string of 24 hexadecimal digits names; [isMongoId] and
    [mongoose.Types.ObjectId.isValid] agree with it on the strings that
    [searchValidation] lets through to the handler. *)
Definition parseObjectId (s : string) : option ObjectId :=
  if Nat.eqb (String.length s) 24 then parseHex s 0%N else None.

(** *** Values of sort keys and their order *)

(** The BSON values a sort key of a result row can take; [BNull] also
    stands for a missing field. *)
Inductive BsonValue :=
  | BNull
  | BNumber (n : number)
  | BString (s : string)
  | BObjectId (i : ObjectId)
  | BDate (d : Date).

(** The rank of the BSON comparison order: null, numbers, strings,
    ObjectId, date. *)
Definition bsonRank (v : BsonValue) : Z :=
  match v with
  | BNull => 1
  | BNumber _ => 2
  | BString _ => 3
  | BObjectId _ => 4
  | BDate _ => 5
  end.

(** Numbers in the BSON order: [NaN] is below every number. *)
Definition number_leb (a b : number) : bool :=
  match a, b with
  | S754_nan, _ => true
  | _, S754_nan => false
  | _, _ => leb a b
  end.

Definition bson_leb (a b : BsonValue) : bool :=
  match a, b with
  | BNull, BNull => true
  | BNumber x, BNumber y => number_leb x y
  | BString x, BString y => String.leb x y
  | BObjectId x, BObjectId y => N.leb x y
  | BDate x, BDate y => Z.leb x y
  | _, _ => bsonRank a <? bsonRank b
  end.

(** *** Rows of the pipeline *)

(** A visit joined with its patient and its doctor ([$lookup] and
    [$unwind], then [$project]). *)
Record Row := {
  r_visit : Visit;
  r_patient : User;
  r_doctor : User
}.

Definition optString (s : option string) : BsonValue :=
  match s with Some x => BString x | None => BNull end.

Definition optDate (d : option Date) : BsonValue :=
  match d with Some x => BDate x | None => BNull end.

(** The value of the projected row at a path.  Paths that hold an
    embedded document or an array ([patient], [doctor], [treatments]),
    the projected [email], [phone] and [specialization] of the two
    users, and paths the projection does not have, are not modelled:
    they read as missing. *)
Definition fieldAt (path : string) (r : Row) : BsonValue :=
  let v := r_visit r in
  if String.eqb path "_id" then BObjectId (_id v)
  else if String.eqb path "status" then BString (status_name (status v))
  else if String.eqb path "scheduledDate" then BDate (scheduledDate v)
  else if String.eqb path "startTime" then optDate (startTime v)
  else if String.eqb path "endTime" then optDate (endTime v)
  else if String.eqb path "chiefComplaint" then optString (chiefComplaint v)
  else if String.eqb path "diagnosis" then optString (diagnosis v)
  else if String.eqb path "notes" then optString (notes v)
  else if String.eqb path "totalAmount" then BNumber (totalAmount v)
  else if String.eqb path "paymentStatus"
       then BString (paymentStatus_name (paymentStatus v))
  else if String.eqb path "createdAt" then BDate (createdAt v)
  else if String.eqb path "updatedAt" then BDate (updatedAt v)
  else if String.eqb path "patient._id" then BObjectId (u_id (r_patient r))
  else if String.eqb path "patient.name" then BString (u_name (r_patient r))
  else if String.eqb path "doctor._id" then BObjectId (u_id (r_doctor r))
  else if String.eqb path "doctor.name" then BString (u_name (r_doctor r))
  else BNull.

(** *** The [$sort] stage

    The store's sort is modelled by a stable insertion sort over the
    order in which the rows reach the stage. *)

Fixpoint insertSorted {A} (le : A -> A -> bool) (x : A) (l : list A) : list A :=
  match l with
  | [] => [x]
  | y :: rest => if le x y then x :: l else y :: insertSorted le x rest
  end.

Definition sortBy' {A} (le : A -> A -> bool) (l : list A) : list A :=
  fold_right (insertSorted le) [] l.

(** [{ $sort: { [sortBy]: sortDirection } }] *)
Definition rowLe (sortBy : string) (direction : Z) (a b : Row) : bool :=
  if direction =? 1
  then bson_leb (fieldAt sortBy a) (fieldAt sortBy b)
  else bson_leb (fieldAt sortBy b) (fieldAt sortBy a).

Definition sortStage (sortBy : string) (direction : Z) (rows : list Row)
    : list Row :=
  sortBy' (rowLe sortBy direction) rows.

(** *** The request and the answer *)

(** [req.query]; [q_page] and [q_limit] are the integers [parseInt]
    reads, dates are decoded, [None] is an absent parameter. *)
Record SearchQuery := {
  q_visitId : option string;
  q_doctorName : option string;
  q_patientName : option string;
  q_status : option string;
  q_paymentStatus : option string;
  q_startDate : option Date;
  q_endDate : option Date;
  q_page : option Z;
  q_limit : option Z;
  q_sortBy : option string;
  q_sortOrder : option string
}.

(** [statistics] of the answer; [totalRevenue] is the Number that the
    handler then renders with [toFixed(2)]. *)
Record Statistics := {
  totalRevenue : number;
  completedVisits : Z;
  pendingPayments : Z;
  partialPayments : Z;
  paidVisits : Z
}.

Record SearchResult := {
  count : Z;
  total : Z;
  page : Z;
  pages : Z;
  statistics : Statistics;
  items : list Row
}.

(** A query string parameter is truthy when present and not empty. *)
Definition provided (s : option string) : option string :=
  match s with
  | Some (String c r) => Some (String c r)
  | _ => None
  end.

(** The [query] object built from the structural filters, as the
    predicate [$match] applies. *)
Record MatchQuery := {
  m_id : option ObjectId;
  m_status : option string;
  m_paymentStatus : option string;
  m_gte : option Date;
  m_lte : option Date
}.

Definition matches (q : MatchQuery) (v : Visit) : bool :=
  optional (fun i => N.eqb (_id v) i) (m_id q)
  && optional (String.eqb (status_name (status v))) (m_status q)
  && optional (String.eqb (paymentStatus_name (paymentStatus v)))
              (m_paymentStatus q)
  && optional (fun d => d <=? scheduledDate v) (m_gte q)
  && optional (fun d => scheduledDate v <=? d) (m_lte q).

(** The first part of [searchVisits]: build [query], or answer 400
    when [visitId] is not an ObjectId. *)
Definition buildQuery (q : SearchQuery) : Error + MatchQuery :=
  match match provided (q_visitId q) with
        | None => Some None
        | Some s => option_map Some (parseObjectId s)
        end with
  | None => inl ValidationError
  | Some id =>
      inr {| m_id := id;
             m_status := provided (q_status q);
             m_paymentStatus := provided (q_paymentStatus q);
             m_gte := q_startDate q;
             m_lte := q_endDate q |}
  end.

(** [Math.ceil(total / limit)] for a count and a positive limit. *)
Definition ceilDiv (total limit : Z) : Z := (total + limit - 1) / limit.

Definition countIf {A} (f : A -> bool) (l : list A) : Z :=
  Z.of_nat (List.length (filter f l)).

(** The [$group] stage of the statistics, with the defaults the handler
    substitutes when no document reaches it. *)
Definition groupStatistics (vs : list Visit) : Statistics :=
  {| totalRevenue := fold_left (fun sum v => add sum (totalAmount v)) vs zero;
     completedVisits := countIf (fun v => status_eqb (status v) completed) vs;
     pendingPayments :=
       countIf (fun v => paymentStatus_eqb (paymentStatus v) pending) vs;
     partialPayments :=
       countIf (fun v => paymentStatus_eqb (paymentStatus v) partial) vs;
     paidVisits :=
       countIf (fun v => paymentStatus_eqb (paymentStatus v) paid) vs |}.

(** [sortBy = "scheduledDate"] unless given, and
    [sortDirection = sortOrder === "asc" ? 1 : -1]. *)
Definition sortKey (q : SearchQuery) : string :=
  match q_sortBy q with
  | Some s => s
  | None => "scheduledDate"%string
  end.

Definition sortDirection (q : SearchQuery) : Z :=
  match q_sortOrder q with
  | Some o => if String.eqb o "asc" then 1 else -1
  | None => -1
  end.

(** [page = 1] and [limit = 20] unless given. *)
Definition pageOf (q : SearchQuery) : Z :=
  match q_page q with Some p => p | None => 1 end.

Definition limitOf (q : SearchQuery) : Z :=
  match q_limit q with Some l => l | None => 20 end.

Section Search.

(** [regexTest pattern subject]: whether the store's [$regex] with
    option [i] finds [pattern] in [subject]. *)
Variable regexTest : string -> string -> bool.

(** [$lookup] of patient and doctor in [users], then the two
    [$unwind]s: one row per pair of matching users, none when a
    reference dangles. *)
Definition joinUsers (db : Db) (v : Visit) : list Row :=
  flat_map (fun p =>
    map (fun d => {| r_visit := v; r_patient := p; r_doctor := d |})
        (filter (fun u => N.eqb (u_id u) (doctor v)) (users db)))
    (filter (fun u => N.eqb (u_id u) (patient v)) (users db)).

Definition nameFilter (pattern : option string) (who : Row -> User)
    (rows : list Row) : list Row :=
  match provided pattern with
  | Some p => filter (fun r => regexTest p (u_name (who r))) rows
  | None => rows
  end.

(** The pipeline up to and including [$project]: what both the count
    and the page are computed from. *)
Definition pipelineRows (q : SearchQuery) (m : MatchQuery) (db : Db)
    : list Row :=
  nameFilter (q_doctorName q) r_doctor
    (nameFilter (q_patientName q) r_patient
      (flat_map (joinUsers db) (filter (matches m) (visits db)))).

(** The rows in the order of the [$sort] stage. *)
Definition sortedRows (q : SearchQuery) (m : MatchQuery) (db : Db)
    : list Row :=
  sortStage (sortKey q) (sortDirection q) (pipelineRows q m db).

(** [searchVisits].  The store rejects a negative [$skip] and a
    [$limit] that is not positive; the exception reaches
    [errorHandler]. *)
Definition searchVisits (q : SearchQuery) (db : Db) : Error + SearchResult :=
  match buildQuery q with
  | inl e => inl e
  | inr m =>
      let page := pageOf q in
      let limit := limitOf q in
      let total := Z.of_nat (List.length (pipelineRows q m db)) in
      let skip := (page - 1) * limit in
      if (skip <? 0) || (limit <=? 0) then inl StoreError
      else
        let visits' :=
          firstn (Z.to_nat limit) (skipn (Z.to_nat skip) (sortedRows q m db)) in
        inr {| count := Z.of_nat (List.length visits');
               total := total;
               page := page;
               pages := ceilDiv total limit;
               statistics := groupStatistics (filter (matches m) (visits db));
               items := visits' |}
  end.

(** [searchValidation] ([middleware/validation.js]) *)
Definition searchValidation (q : SearchQuery) : bool :=
  optional (fun s => match parseObjectId s with Some _ => true | None => false end)
           (q_visitId q)
  && optional (fun s => isIn s ["scheduled"; "in_progress"; "completed"; "cancelled"]%string)
              (q_status q)
  && optional (fun s => isIn s ["pending"; "partial"; "paid"]%string)
              (q_paymentStatus q).

(** The route [GET /api/finance/visits]. *)
Definition getVisits (q : SearchQuery) (db : Db) : Error + SearchResult :=
  if searchValidation q then searchVisits q db else inl ValidationError.

End Search.

(** A matcher for patterns without regular-expression metacharacters:
    case-insensitive search of the pattern as a substring. *)
Definition lower (c : ascii) : ascii :=
  let n := nat_of_ascii c in
  if Nat.leb 65 n && Nat.leb n 90 then ascii_of_nat (n + 32) else c.

Fixpoint lowercase (s : string) : string :=
  match s with
  | EmptyString => EmptyString
  | String c r => String (lower c) (lowercase r)
  end.

Fixpoint containsAt (p s : string) : bool :=
  match s with
  | EmptyString => String.prefix p EmptyString
  | String _ r => String.prefix p s || containsAt p r
  end.

Definition containsIgnoreCase (pattern subject : string) : bool :=
  containsAt (lowercase pattern) (lowercase subject).

(* ================================================================== *)
(** ** Notions the properties are stated with *)
(* ================================================================== *)

(** The sum of the [totalPrice] values of a treatment collection, from
    left to right, starting at 0. *)
Definition sumOfTotalPrice (ts : list Treatment) : number :=
  fold_left (fun s t => add s (totalPrice t)) ts zero.

(** Every treatment's [totalPrice] is the product of its [unitPrice] and
    [quantity]. *)
Definition pricesDerived (ts : list Treatment) : Prop :=
  Forall (fun t => totalPrice t = mul (unitPrice t) (quantity t)) ts.

(** A visit billed for a list of treatments. *)
Definition billed (ts : list Treatment) (v : Visit) : Visit :=
  with_totalAmount (sumOfTotalPrice ts) (with_treatments ts v).

(** The three ledger mutations, as one request type. *)
Inductive LedgerOp :=
  | OpAdd (fresh : ObjectId) (body : TreatmentBody)
  | OpUpdate (treatmentId : ObjectId) (body : TreatmentBody)
  | OpRemove (treatmentId : ObjectId).

Definition ledger (now : Date) (id doctorId : ObjectId) (op : LedgerOp)
    (db : Db) : Response * Db :=
  match op with
  | OpAdd fresh body => addTreatment now fresh id doctorId body db
  | OpUpdate treatmentId body => updateTreatment now id treatmentId doctorId body db
  | OpRemove treatmentId => deleteTreatment now id treatmentId doctorId db
  end.

(** The three status transitions a doctor can ask for, and the status
    each one aims at. *)
Inductive LifecycleOp := OpStart | OpComplete | OpCancel.

Definition target (op : LifecycleOp) : Status :=
  match op with
  | OpStart => in_progress
  | OpComplete => completed
  | OpCancel => cancelled
  end.

Definition lifecycle (now : Date) (id doctorId : ObjectId) (op : LifecycleOp)
    (db : Db) : Response * Db :=
  match op with
  | OpStart => startVisit now id doctorId db
  | OpComplete => completeVisit now id doctorId db
  | OpCancel => cancelVisit now id doctorId role_doctor db
  end.

(** The transition table as the specification words it:
    scheduled -> {in_progress, cancelled}; in_progress -> {completed,
    cancelled}; nothing out of completed or cancelled. *)
Definition specTable (from to : Status) : bool :=
  match from, to with
  | scheduled, in_progress | scheduled, cancelled
  | in_progress, completed | in_progress, cancelled => true
  | _, _ => false
  end.

(** The transition table the guards of [startVisit], [completeVisit] and
    [cancelVisit] implement. *)
Definition guardTable (from to : Status) : bool :=
  match from, to with
  | scheduled, in_progress | scheduled, completed | scheduled, cancelled
  | in_progress, completed | in_progress, cancelled => true
  | _, _ => false
  end.

(** What a transition request on [visit] towards status [to] must
    answer under [guardTable]: the visit stored with the new status, or
    [InvalidTransitionError] and the store as it was. *)
Definition transitionOutcome (visit : Visit) (to : Status) (id : ObjectId)
    (db : Db) (result : Response * Db) : Prop :=
  if guardTable (status visit) to
  then exists w,
         result = (Success 200 (Some w),
                   with_visits (replaceOne w (visits db)) db)
         /\ status w = to
         /\ findById id (snd result) = Some w
  else result = (Failure InvalidTransitionError, db).

(** A stored visit is well formed when it passes the schema, its prices
    are derived and its total is the sum of them. *)
Definition wellFormed (v : Visit) : Prop :=
  validateVisit v = true
  /\ pricesDerived (treatments v)
  /\ totalAmount v = sumOfTotalPrice (treatments v).

(** The requests that write to the visit collection. *)
Inductive Request :=
  | ReqCreate (fresh patientId : ObjectId) (body : VisitBody)
  | ReqUpdate (id doctorId : ObjectId) (body : ClinicalBody)
  | ReqLifecycle (id doctorId : ObjectId) (op : LifecycleOp)
  | ReqCancel (id userId : ObjectId) (role : Role)
  | ReqLedger (id doctorId : ObjectId) (op : LedgerOp)
  | ReqPayment (id : ObjectId) (paymentStatus' : option string).

Definition handle (now : Date) (r : Request) (db : Db) : Response * Db :=
  match r with
  | ReqCreate fresh patientId body => createVisit now fresh patientId body db
  | ReqUpdate id doctorId body => updateVisit now id doctorId body db
  | ReqLifecycle id doctorId op => lifecycle now id doctorId op db
  | ReqCancel id userId role => cancelVisit now id userId role db
  | ReqLedger id doctorId op => ledger now id doctorId op db
  | ReqPayment id p => updatePaymentStatus now id p db
  end.

(** The stores the handlers can produce from an empty visit collection;
    the user collection changes at will (it is written by the account
    handlers, which never touch a visit). *)
Inductive reachable : Db -> Prop :=
  | reach_empty (people : list User) :
      reachable {| visits := []; users := people |}
  | reach_handle (db : Db) (now : Date) (r : Request) :
      reachable db -> reachable (snd (handle now r db))
  | reach_users (db : Db) (people : list User) :
      reachable db -> reachable {| visits := visits db; users := people |}.




(** The outcome of a rounding that was given the sign [s]: a zero, an
    infinity or a finite Number of that sign. *)
Definition signed (s : bool) (x : number) : Prop :=
  match x with
  | S754_zero s' | S754_infinity s' | S754_finite s' _ _ => s' = s
  | S754_nan => False
  end.

(** The visit that [save] writes. *)
Definition saved (now : Date) (d : Document) : Visit :=
  doc (visitPreSave (timestampsPreSave now (treatmentsPreSave d))).

(** Agreement on the fields that no pre-save hook touches. *)
Record sameCore (v w : Visit) : Prop := {
  core_id : _id w = _id v;
  core_patient : patient w = patient v;
  core_doctor : doctor w = doctor v;
  core_status : status w = status v;
  core_scheduledDate : scheduledDate w = scheduledDate v;
  core_startTime : startTime w = startTime v;
  core_endTime : endTime w = endTime v;
  core_chiefComplaint : chiefComplaint w = chiefComplaint v;
  core_diagnosis : diagnosis w = diagnosis v;
  core_notes : notes w = notes v;
  core_paymentStatus : paymentStatus w = paymentStatus v
}.

Definition with_b_totalPrice (p : option number) (b : TreatmentBody) : TreatmentBody :=
  {| b_name := b_name b; b_description := b_description b;
     b_quantity := b_quantity b; b_unitPrice := b_unitPrice b;
     b_category := b_category b; b_totalPrice := p |}.

Definition payloadOf (r : Response) : option Visit :=
  match r with
  | Success _ p => p
  | Failure _ => None
  end.

(* ================================================================== *)
(** ** Sample data *)
(* ================================================================== *)

Module Sample.

Definition alice : User :=
  {| u_id := 1%N; u_name := "Alice"; u_role := role_patient; isActive := true |}.
Definition bob : User :=
  {| u_id := 2%N; u_name := "Bob"; u_role := role_patient; isActive := true |}.
Definition drHo : User :=
  {| u_id := 10%N; u_name := "Dr Ho"; u_role := role_doctor; isActive := true |}.

(** A visit of Alice with Dr Ho, in a given status, with no treatment. *)
Definition visitOf (id patientId : ObjectId) (s : Status) (date : Date) : Visit :=
  {| _id := id; patient := patientId; doctor := 10%N; status := s;
     scheduledDate := date; startTime := None; endTime := None;
     chiefComplaint := Some "cough"%string; diagnosis := None; notes := None;
     treatments := []; totalAmount := zero; paymentStatus := pending;
     createdAt := 1000; updatedAt := 1000 |}.

Definition people : list User := [alice; bob; drHo].

Definition db (vs : list Visit) : Db := {| visits := vs; users := people |}.

(** [{ name: "x-ray", quantity: 2, unitPrice: 50 }] *)
Definition xray : TreatmentBody :=
  {| b_name := Some "x-ray"%string; b_description := None;
     b_quantity := Some (ofZ 2); b_unitPrice := Some (ofZ 50);
     b_category := None; b_totalPrice := None |}.

(** [{ name: "pill", unitPrice: 25.5, category: "medication" }] *)
Definition pill : TreatmentBody :=
  {| b_name := Some "pill"%string; b_description := None;
     b_quantity := None; b_unitPrice := Some (ofDecimal 255 1);
     b_category := Some "medication"%string; b_totalPrice := None |}.

(** A scheduled visit, and the store after the x-ray was added to it. *)
Definition scheduledDb : Db := db [visitOf 100%N 1%N scheduled 2000].

Definition withXray : Response * Db :=
  ledger 1100 100%N 10%N (OpAdd 200%N xray) scheduledDb.

Definition withXrayAndPill : Response * Db :=
  ledger 1200 100%N 10%N (OpAdd 201%N pill) (snd withXray).

(** A line of [q] units at [u] each. *)
Definition line (id : ObjectId) (n : string) (u q : number) : Treatment :=
  {| t_id := id; name := n; description := None; quantity := q;
     unitPrice := u; totalPrice := mul u q; category := "other"%string |}.

(** Alice's visit billed 100 and Bob's billed 50, both completed. *)
Definition aliceVisit : Visit :=
  billed [line 200%N "x-ray" (ofZ 50) (ofZ 2)]
         (visitOf 100%N 1%N completed 2000).

Definition bobVisit : Visit :=
  with_paymentStatus paid
    (billed [line 201%N "cast" (ofZ 50) (ofZ 1)]
            (visitOf 101%N 2%N completed 3000)).

Definition financeDb : Db := db [aliceVisit; bobVisit].


(** [?patientName=alice] *)
Definition aliceQuery : SearchQuery :=
  {| q_visitId := None; q_doctorName := None;
     q_patientName := Some "alice"%string;
     q_status := None; q_paymentStatus := None; q_startDate := None;
     q_endDate := None; q_page := None; q_limit := None;
     q_sortBy := None; q_sortOrder := None |}.


(** [{ name: "swab", quantity: 3, unitPrice: 0.1 }] and
    [{ name: "wipe", unitPrice: 0.2 }] *)
Definition swab : TreatmentBody :=
  {| b_name := Some "swab"%string; b_description := None;
     b_quantity := Some (ofZ 3); b_unitPrice := Some (ofDecimal 1 1);
     b_category := None; b_totalPrice := None |}.

Definition wipe : TreatmentBody :=
  {| b_name := Some "wipe"%string; b_description := None;
     b_quantity := None; b_unitPrice := Some (ofDecimal 2 1);
     b_category := None; b_totalPrice := None |}.

Definition tenth : TreatmentBody :=
  {| b_name := Some "tenth"%string; b_description := None;
     b_quantity := None; b_unitPrice := Some (ofDecimal 1 1);
     b_category := None; b_totalPrice := None |}.

(** [{ doctorId: drHo, scheduledDate: 2000, chiefComplaint: " cough " }] *)
Definition booking : VisitBody :=
  {| b_doctorId := Some 10%N; b_scheduledDate := Some 2000;
     b_chiefComplaint := Some " cough "%string |}.

End Sample.

(* ================================================================== *)
(** * Properties *)
(* ================================================================== *)

(** ** Numbers: signs survive rounding *)

Lemma same_eq (a b : number) : same a b = true -> a = b.
Proof.
  destruct a as [s | s | | s m e], b as [s' | s' | | s' m' e']; simpl;
    try discriminate; try reflexivity.
  - intro H. apply Bool.eqb_prop in H. now subst.
  - intro H. apply Bool.eqb_prop in H. now subst.
  - intro H. apply andb_prop in H as [H He]. apply andb_prop in H as [Hs Hm].
    apply Bool.eqb_prop in Hs. apply Pos.eqb_eq in Hm. apply Z.eqb_eq in He.
    now subst.
Qed.

Lemma same_refl (a : number) : same a a = true.
Proof.
  destruct a as [s | s | | s m e]; simpl; auto using Bool.eqb_reflx.
  now rewrite Bool.eqb_reflx, Pos.eqb_refl, Z.eqb_refl.
Qed.

Lemma shr_1_nonneg (r : shr_record) : 0 <= shr_m r -> 0 <= shr_m (shr_1 r).
Proof.
  destruct r as [m rb sb]; simpl.
  destruct m as [| p | p]; simpl; try lia.
  destruct p; simpl; lia.
Qed.

Lemma iter_shr_1_nonneg (p : positive) (r : shr_record) :
  0 <= shr_m r -> 0 <= shr_m (SpecFloat.iter_pos shr_1 p r).
Proof.
  revert r. induction p as [p IH | p IH |]; intros r Hr; simpl.
  - apply IH, IH, shr_1_nonneg, Hr.
  - apply IH, IH, Hr.
  - apply shr_1_nonneg, Hr.
Qed.

Lemma shr_fexp_nonneg (m e : Z) (l : location) :
  0 <= m -> 0 <= shr_m (fst (shr_fexp prec emax m e l)).
Proof.
  intro Hm. unfold shr_fexp, shr.
  assert (H0 : 0 <= shr_m (shr_record_of_loc m l)).
  { destruct l as [| c]; [exact Hm | destruct c; exact Hm]. }
  destruct (fexp prec emax (Zdigits2 m + e) - e) as [| p | p]; simpl; auto.
  now apply iter_shr_1_nonneg.
Qed.

Lemma round_nearest_even_nonneg (m : Z) (l : location) :
  0 <= m -> 0 <= round_nearest_even m l.
Proof.
  intro Hm. destruct l as [| c]; simpl; [assumption |].
  destruct c; [destruct (Z.even m) | |]; lia.
Qed.

(** Rounding a non-negative mantissa keeps the sign it was given: the
    outcome is never [NaN]. *)
Lemma binary_round_aux_signed (s : bool) (m e : Z) (l : location) :
  0 <= m -> signed s (binary_round_aux prec emax s m e l).
Proof.
  intro Hm. unfold binary_round_aux.
  pose proof (shr_fexp_nonneg m e l Hm) as H1.
  destruct (shr_fexp prec emax m e l) as [mrs' e'] eqn:E1. simpl in H1.
  pose proof (shr_fexp_nonneg
                (round_nearest_even (shr_m mrs') (loc_of_shr_record mrs'))
                e' loc_Exact (round_nearest_even_nonneg _ _ H1)) as H2.
  destruct (shr_fexp prec emax _ e' loc_Exact) as [mrs'' e''] eqn:E2.
  simpl in H2.
  destruct (shr_m mrs'') as [| p | p]; [exact eq_refl | | lia].
  destruct (e'' <=? emax - prec); exact eq_refl.
Qed.

Lemma nonneg_signed (x : number) : nonneg x = true <-> signed false x.
Proof.
  destruct x as [[] | [] | | [] m e]; simpl; split; intro H;
    try reflexivity; try discriminate; try contradiction.
Qed.

Lemma add_nonneg (a b : number) :
  nonneg a = true -> nonneg b = true -> nonneg (add a b) = true.
Proof.
  destruct a as [[] | [] | | [] ma ea]; try discriminate;
  destruct b as [[] | [] | | [] mb eb]; try discriminate; intros _ _;
    try reflexivity.
  apply nonneg_signed. unfold add, SFadd. simpl cond_Zopp.
  set (x := fst (shl_align ma ea (Z.min ea eb))).
  set (y := fst (shl_align mb eb (Z.min ea eb))).
  change (Z.pos x + Z.pos y) with (Z.pos (x + y)).
  unfold binary_normalize, binary_round.
  destruct (shl_align (x + y) _ _) as [mz ez].
  apply binary_round_aux_signed. lia.
Qed.

(** What passes the schema's [min: 0]. *)
Lemma geb_zero_cases (p : number) :
  geb p zero = true -> nonneg p = true \/ p = S754_zero true.
Proof.
  destruct p as [[] | [] | | [] m e]; simpl; intro H;
    try discriminate; auto.
Qed.

(** On a non-negative running sum, [p || 0] adds what [p] adds. *)
Lemma add_or_else_zero (s p : number) :
  nonneg s = true -> geb p zero = true ->
  add s (or_else p zero) = add s p /\ nonneg (add s p) = true.
Proof.
  intros Hs Hp. destruct (geb_zero_cases _ Hp) as [Hn | ->].
  - split; [| now apply add_nonneg].
    destruct p as [[] | [] | | [] m e]; try discriminate; reflexivity.
  - destruct s as [[] | [] | | [] m e]; try discriminate; split; reflexivity.
Qed.

(** ** What [save] writes *)

Ltac unfold_save :=
  unfold saved, visitPreSave, timestampsPreSave, treatmentsPreSave,
         calculateTotalAmount, set_treatments, set_path, isModified;
  simpl.

Lemma saved_treatments now d :
  treatments (saved now d) = map treatmentPreSave (treatments (doc d)).
Proof.
  unfold_save.
  destruct (isNew d); simpl;
    destruct (modifiedTreatments d || existsb totalPriceStale (treatments (doc d)));
    simpl; try reflexivity;
    destruct (modifiedOther d); reflexivity.
Qed.

Lemma saved_totalAmount now d :
  totalAmount (saved now d) =
  if modifiedTreatments d || existsb totalPriceStale (treatments (doc d))
  then sumTotalPrice (map treatmentPreSave (treatments (doc d)))
  else totalAmount (doc d).
Proof.
  unfold_save.
  destruct (isNew d); simpl;
    destruct (modifiedTreatments d || existsb totalPriceStale (treatments (doc d)));
    simpl; try reflexivity;
    destruct (modifiedOther d); reflexivity.
Qed.

Lemma saved_core now d : sameCore (doc d) (saved now d).
Proof.
  unfold_save.
  destruct (isNew d); simpl;
    destruct (modifiedTreatments d || existsb totalPriceStale (treatments (doc d)));
    simpl; try (constructor; reflexivity);
    destruct (modifiedOther d); constructor; reflexivity.
Qed.

Lemma treatmentPreSave_fresh (t : Treatment) :
  totalPriceStale t = false -> treatmentPreSave t = t.
Proof.
  unfold totalPriceStale, treatmentPreSave, with_totalPrice. intro H.
  apply negb_false_iff, same_eq in H. rewrite <- H. now destruct t.
Qed.

Lemma treatmentsPreSave_fresh (ts : list Treatment) :
  existsb totalPriceStale ts = false -> map treatmentPreSave ts = ts.
Proof.
  induction ts as [| t ts IH]; simpl; [reflexivity |].
  intro H. apply orb_false_iff in H as [Ht Hts].
  now rewrite treatmentPreSave_fresh, IH.
Qed.

Lemma pricesDerived_not_stale (ts : list Treatment) :
  pricesDerived ts -> existsb totalPriceStale ts = false.
Proof.
  induction 1 as [| t ts Ht _ IH]; simpl; [reflexivity |].
  rewrite IH, orb_false_r. unfold totalPriceStale.
  now rewrite Ht, same_refl.
Qed.

Lemma pricesDerived_preSave (ts : list Treatment) :
  pricesDerived (map treatmentPreSave ts).
Proof.
  unfold pricesDerived. apply Forall_forall. intros t Ht.
  apply in_map_iff in Ht as (t0 & <- & _). reflexivity.
Qed.

(** A document on which [calculateTotalAmount] ran last is saved with
    the total of the treatments it is saved with. *)
Lemma saved_after_calculate now d :
  totalAmount (saved now (calculateTotalAmount d)) =
  sumTotalPrice (treatments (saved now (calculateTotalAmount d))).
Proof.
  rewrite saved_totalAmount, saved_treatments.
  destruct (modifiedTreatments _ || existsb _ _) eqn:E; [reflexivity |].
  apply orb_false_iff in E as [_ E].
  rewrite (treatmentsPreSave_fresh _ E). reflexivity.
Qed.

(** ** The code's sum and the plain sum *)

Lemma sum_or_else_from (ts : list Treatment) (s : number) :
  nonneg s = true ->
  forallb (fun t => geb (totalPrice t) zero) ts = true ->
  fold_left (fun sum t => add sum (or_else (totalPrice t) zero)) ts s
  = fold_left (fun sum t => add sum (totalPrice t)) ts s
  /\ nonneg (fold_left (fun sum t => add sum (totalPrice t)) ts s) = true.
Proof.
  revert s. induction ts as [| t ts IH]; intros s Hs Hts; simpl.
  - auto.
  - simpl in Hts. apply andb_prop in Hts as [Ht Hts].
    destruct (add_or_else_zero s (totalPrice t) Hs Ht) as [-> Hn].
    now apply IH.
Qed.

Lemma sumTotalPrice_plain (ts : list Treatment) :
  forallb (fun t => geb (totalPrice t) zero) ts = true ->
  sumTotalPrice ts = sumOfTotalPrice ts.
Proof. intro H. now apply (sum_or_else_from ts zero). Qed.

Lemma sumOfTotalPrice_nonneg (ts : list Treatment) :
  forallb (fun t => geb (totalPrice t) zero) ts = true ->
  nonneg (sumOfTotalPrice ts) = true.
Proof. intro H. now apply (sum_or_else_from ts zero). Qed.

Lemma validateTreatment_price (ts : list Treatment) :
  forallb validateTreatment ts = true ->
  forallb (fun t => geb (totalPrice t) zero) ts = true.
Proof.
  intro H. apply forallb_forall. intros t Ht.
  rewrite forallb_forall in H. specialize (H t Ht).
  unfold validateTreatment in H.
  apply andb_prop in H as [H _]. now apply andb_prop in H as [_ H].
Qed.

Lemma validateVisit_treatments (v : Visit) :
  validateVisit v = true -> forallb validateTreatment (treatments v) = true.
Proof.
  unfold validateVisit. intro H.
  apply andb_prop in H as [H _]. now apply andb_prop in H as [_ H].
Qed.

(** ** Reading the saved visit back *)

Lemma find_replaceOne (id : ObjectId) (w : Visit) (vs : list Visit) :
  _id w = id ->
  (exists v, In v vs /\ _id v = id) ->
  find (fun v => N.eqb (_id v) id) (replaceOne w vs) = Some w.
Proof.
  intros Hw. induction vs as [| x vs IH]; intros (v & Hin & Hv).
  - destruct Hin.
  - simpl. rewrite Hw. destruct (N.eqb (_id x) id) eqn:E.
    + simpl. now rewrite Hw, N.eqb_refl.
    + simpl. rewrite E. apply IH. destruct Hin as [-> | Hin].
      * rewrite Hv, N.eqb_refl in E. discriminate.
      * eauto.
Qed.

Lemma findOneOfDoctor_found id doctorId db v :
  findOneOfDoctor id doctorId db = Some v ->
  In v (visits db) /\ _id v = id /\ doctor v = doctorId.
Proof.
  unfold findOneOfDoctor. intro H. apply find_some in H as [Hin H].
  apply andb_prop in H as [H1 H2].
  apply N.eqb_eq in H1, H2. auto.
Qed.

Lemma findOneOfPatient_found id patientId db v :
  findOneOfPatient id patientId db = Some v ->
  In v (visits db) /\ _id v = id /\ patient v = patientId.
Proof.
  unfold findOneOfPatient. intro H. apply find_some in H as [Hin H].
  apply andb_prop in H as [H1 H2].
  apply N.eqb_eq in H1, H2. auto.
Qed.

Lemma findById_found id db v :
  findById id db = Some v -> In v (visits db) /\ _id v = id.
Proof.
  unfold findById. intro H. apply find_some in H as [Hin H].
  apply N.eqb_eq in H. auto.
Qed.

(** Saving a loaded visit and reading it back. *)
Lemma saveAndRespond_loaded code now d db v r db' :
  In v (visits db) -> _id v = _id (doc d) -> isNew d = false ->
  saveAndRespond code now d db = (r, db') ->
  (r = Failure ValidationError /\ db' = db /\ validateVisit (doc d) = false)
  \/ (r = Success code (Some (saved now d))
      /\ findById (_id (doc d)) db' = Some (saved now d)
      /\ db' = with_visits (replaceOne (saved now d) (visits db)) db
      /\ validateVisit (doc d) = true).
Proof.
  intros Hin Hid Hnew. unfold saveAndRespond, save.
  destruct (validateVisit (doc d)) eqn:V.
  - intro H. right.
    assert (Hp : persist (visitPreSave (timestampsPreSave now (treatmentsPreSave d))) db
                 = with_visits (replaceOne (saved now d) (visits db)) db).
    { unfold persist.
      replace (isNew (visitPreSave (timestampsPreSave now (treatmentsPreSave d))))
        with false; [reflexivity |].
      unfold visitPreSave, timestampsPreSave, treatmentsPreSave,
        calculateTotalAmount, set_treatments, set_path, isModified; simpl.
      rewrite Hnew.
      destruct (modifiedTreatments d || existsb totalPriceStale (treatments (doc d)));
        simpl; auto; destruct (modifiedOther d); simpl; auto. }
    rewrite Hp in H.
    assert (Hf : findById (_id (doc d))
                   (with_visits (replaceOne (saved now d) (visits db)) db)
                 = Some (saved now d)).
    { unfold findById, with_visits; simpl. apply find_replaceOne.
      - apply (core_id _ _ (saved_core now d)).
      - exists v. auto. }
    rewrite Hf in H. injection H as <- <-. auto.
  - intro H. injection H as <- <-. left. auto.
Qed.

(** ** The ledger handlers *)

Lemma pricesDerived_app ts t :
  pricesDerived ts -> totalPrice t = mul (unitPrice t) (quantity t) ->
  pricesDerived (ts ++ [t]).
Proof.
  intros H Ht. apply Forall_app. split; [exact H | now constructor].
Qed.

Lemma pricesDerived_filter f ts :
  pricesDerived ts -> pricesDerived (filter f ts).
Proof.
  unfold pricesDerived. rewrite !Forall_forall. intros H t Ht.
  apply filter_In in Ht as [Ht _]. auto.
Qed.

Lemma pricesDerived_updateById tid t' ts :
  pricesDerived ts -> totalPrice t' = mul (unitPrice t') (quantity t') ->
  pricesDerived (updateById tid (fun _ => t') ts).
Proof.
  intros H Ht'. induction H as [| t ts Ht Hts IH]; simpl.
  - constructor.
  - destruct (N.eqb (t_id t) tid); constructor; auto.
Qed.

Lemma assignTreatment_derived b t :
  totalPrice (assignTreatment b t)
  = mul (unitPrice (assignTreatment b t)) (quantity (assignTreatment b t)).
Proof. reflexivity. Qed.

(** The document a ledger mutation hands to [save]. *)
Lemma ledger_success now id doctorId op db code payload db' :
  ledger now id doctorId op db = (Success code payload, db') ->
  exists visit d,
    findOneOfDoctor id doctorId db = Some visit
    /\ terminal (status visit) = false
    /\ sameCore visit (doc d)
    /\ (pricesDerived (treatments visit) -> pricesDerived (treatments (doc d)))
    /\ validateVisit (doc (calculateTotalAmount d)) = true
    /\ payload = Some (saved now (calculateTotalAmount d))
    /\ findById id db' = Some (saved now (calculateTotalAmount d))
    /\ db' = with_visits
               (replaceOne (saved now (calculateTotalAmount d)) (visits db)) db.
Proof.
  intro H.
  assert (Hcore : forall v ch ts,
             sameCore v (doc (set_treatments ch ts (hydrate v)))).
  { intros. constructor; reflexivity. }
  assert (K : forall visit d,
             findOneOfDoctor id doctorId db = Some visit ->
             terminal (status visit) = false ->
             sameCore visit (doc d) -> isNew d = false ->
             (pricesDerived (treatments visit) -> pricesDerived (treatments (doc d))) ->
             saveAndRespond code now (calculateTotalAmount d) db
               = (Success code payload, db') ->
             exists visit d,
               findOneOfDoctor id doctorId db = Some visit
               /\ terminal (status visit) = false
               /\ sameCore visit (doc d)
               /\ (pricesDerived (treatments visit) -> pricesDerived (treatments (doc d)))
               /\ validateVisit (doc (calculateTotalAmount d)) = true
               /\ payload = Some (saved now (calculateTotalAmount d))
               /\ findById id db' = Some (saved now (calculateTotalAmount d))
               /\ db' = with_visits
                          (replaceOne (saved now (calculateTotalAmount d)) (visits db)) db).
  { intros visit d Hf Ht Hc Hn Hp Hs.
    destruct (findOneOfDoctor_found _ _ _ _ Hf) as (Hin & Hid & _).
    assert (Hid' : _id visit = _id (doc (calculateTotalAmount d))).
    { simpl. symmetry. apply (core_id _ _ Hc). }
    destruct (saveAndRespond_loaded code now (calculateTotalAmount d) db visit
                _ _ Hin Hid' Hn Hs) as [(E & _) | (E & Hfind & Hdb & Hv)];
      [discriminate |].
    injection E as ->. exists visit, d.
    assert (Ei : _id (doc (calculateTotalAmount d)) = id) by congruence.
    rewrite Ei in Hfind. auto 10. }
  destruct op as [fresh body | tid body | tid]; simpl in H.
  - unfold addTreatment in H.
    destruct (findOneOfDoctor id doctorId db) as [visit |] eqn:Hf; [| discriminate].
    destruct (terminal (status visit)) eqn:Ht; [discriminate |].
    match type of H with
    | saveAndRespond _ _ (calculateTotalAmount ?d) _ = _ =>
        assert (Hc : code = 201);
        [ unfold saveAndRespond in H; destruct (save now _ db);
          [discriminate | now injection H] |];
        subst code;
        apply (K visit d);
          [reflexivity | exact Ht | apply Hcore | reflexivity | | exact H]
    end.
    intro Hp. simpl. apply pricesDerived_app; [exact Hp | reflexivity].
  - unfold updateTreatment in H.
    destruct (findOneOfDoctor id doctorId db) as [visit |] eqn:Hf; [| discriminate].
    destruct (terminal (status visit)) eqn:Ht; [discriminate |].
    destruct (treatmentById tid (treatments visit)) as [t |] eqn:Hti; [| discriminate].
    match type of H with
    | saveAndRespond _ _ (calculateTotalAmount ?d) _ = _ =>
        assert (Hc : code = 200);
        [ unfold saveAndRespond in H; destruct (save now _ db);
          [discriminate | now injection H] |];
        subst code;
        apply (K visit d);
          [reflexivity | exact Ht | apply Hcore | reflexivity | | exact H]
    end.
    intro Hp. simpl. apply pricesDerived_updateById; [exact Hp |].
      apply assignTreatment_derived.
  - unfold deleteTreatment in H.
    destruct (findOneOfDoctor id doctorId db) as [visit |] eqn:Hf; [| discriminate].
    destruct (terminal (status visit)) eqn:Ht; [discriminate |].
    match type of H with
    | saveAndRespond _ _ (calculateTotalAmount ?d) _ = _ =>
        assert (Hc : code = 200);
        [ unfold saveAndRespond in H; destruct (save now _ db);
          [discriminate | now injection H] |];
        subst code;
        apply (K visit d);
          [reflexivity | exact Ht | apply Hcore | reflexivity | | exact H]
    end.
    intro Hp. simpl. now apply pricesDerived_filter.
Qed.

(** C1.  After a ledger mutation (adding, updating or removing a
    treatment) has been saved, the [totalAmount] of the stored visit is
    the sum of the [totalPrice] of the treatments in its collection.
    The visit the mutation starts from has derived prices, as every
    saved visit has. *)
Theorem ledger_totalAmount_is_sum now id doctorId op db visit code payload db' :
  findOneOfDoctor id doctorId db = Some visit ->
  pricesDerived (treatments visit) ->
  ledger now id doctorId op db = (Success code payload, db') ->
  exists w,
    findById id db' = Some w /\ payload = Some w
    /\ totalAmount w = sumOfTotalPrice (treatments w).
Proof.
  intros Hf Hp H.
  destruct (ledger_success _ _ _ _ _ _ _ _ H)
    as (visit' & d & Hf' & _ & _ & Hd & Hv & -> & Hfind & _).
  rewrite Hf in Hf'. injection Hf' as <-.
  exists (saved now (calculateTotalAmount d)). repeat split; auto.
  rewrite saved_after_calculate, saved_treatments.
  change (treatments (doc (calculateTotalAmount d))) with (treatments (doc d)).
  rewrite (treatmentsPreSave_fresh _ (pricesDerived_not_stale _ (Hd Hp))).
  apply sumTotalPrice_plain, validateTreatment_price.
  apply (validateVisit_treatments _ Hv).
Qed.

(** C2.  After a treatment has been created or updated and the visit
    saved, every treatment of the stored visit has
    [totalPrice = unitPrice * quantity]; a [totalPrice] sent in the
    request body changes nothing, so the field cannot be set on its
    own. *)
Theorem totalPrice_is_product now id doctorId op db code payload db' :
  ledger now id doctorId op db = (Success code payload, db') ->
  (exists w,
      findById id db' = Some w /\ payload = Some w
      /\ pricesDerived (treatments w))
  /\ (forall p fresh treatmentId body,
         addTreatment now fresh id doctorId (with_b_totalPrice p body) db
         = addTreatment now fresh id doctorId body db
         /\ updateTreatment now id treatmentId doctorId (with_b_totalPrice p body) db
            = updateTreatment now id treatmentId doctorId body db).
Proof.
  intro H. split.
  - destruct (ledger_success _ _ _ _ _ _ _ _ H)
      as (visit & d & _ & _ & _ & _ & _ & -> & Hfind & _).
    exists (saved now (calculateTotalAmount d)). repeat split; auto.
    rewrite saved_treatments. apply pricesDerived_preSave.
  - intros. split; reflexivity.
Qed.

(** C4.  On a visit that is completed or cancelled, each of the three
    ledger mutations answers [InvalidTransitionError] and returns the
    store as it was, so the treatments and [totalAmount] of the visit are
    unchanged. *)
Theorem ledger_rejected_when_terminal now id doctorId op db visit :
  findOneOfDoctor id doctorId db = Some visit ->
  terminal (status visit) = true ->
  ledger now id doctorId op db = (Failure InvalidTransitionError, db).
Proof.
  intros Hf Ht. destruct op; simpl;
    unfold addTreatment, updateTreatment, deleteTreatment;
    now rewrite Hf, Ht.
Qed.

(** ** Status transitions *)

Lemma saveAndRespond_valid code now d db v :
  In v (visits db) -> _id v = _id (doc d) -> isNew d = false ->
  validateVisit (doc d) = true ->
  saveAndRespond code now d db
  = (Success code (Some (saved now d)),
     with_visits (replaceOne (saved now d) (visits db)) db)
  /\ findById (_id (doc d))
       (with_visits (replaceOne (saved now d) (visits db)) db)
     = Some (saved now d).
Proof.
  intros Hin Hid Hnew Hv.
  destruct (saveAndRespond code now d db) as [r db'] eqn:E.
  destruct (saveAndRespond_loaded code now d db v r db' Hin Hid Hnew E)
    as [(_ & _ & F) | (-> & Hf & -> & _)].
  - congruence.
  - auto.
Qed.

(** C3, amended.  A start, complete or cancel request succeeds exactly
    when the transition is in the table scheduled -> {in_progress,
    completed, cancelled}, in_progress -> {completed, cancelled},
    completed -> {}, cancelled -> {}; every other request answers
    [InvalidTransitionError] and leaves the store unchanged.  This holds
    for the doctor of the visit and for a cancel by its patient. *)
Theorem lifecycle_follows_guardTable now id userId db visit :
  validateVisit visit = true ->
  (findOneOfDoctor id userId db = Some visit ->
   forall op,
     transitionOutcome visit (target op) id db (lifecycle now id userId op db))
  /\ (findOneOfPatient id userId db = Some visit ->
      transitionOutcome visit cancelled id db
        (cancelVisit now id userId role_patient db)).
Proof.
  intro Hv.
  assert (K : forall d to,
             In visit (visits db) -> _id visit = id ->
             _id (doc d) = _id visit -> isNew d = false ->
             validateVisit (doc d) = true ->
             status (doc d) = to ->
             exists w,
               saveAndRespond 200 now d db
               = (Success 200 (Some w), with_visits (replaceOne w (visits db)) db)
               /\ status w = to
               /\ findById id (snd (saveAndRespond 200 now d db)) = Some w).
  { intros d to Hin Hid Hd Hn Hvd Hs.
    destruct (saveAndRespond_valid 200 now d db visit Hin (eq_sym Hd) Hn Hvd)
      as [E F].
    exists (saved now d). rewrite E. simpl. rewrite Hd, Hid in F.
    repeat split; auto.
    rewrite (core_status _ _ (saved_core now d)). exact Hs. }
  split.
  - intros Hf op.
    destruct (findOneOfDoctor_found _ _ _ _ Hf) as (Hin & Hid & _).
    unfold transitionOutcome.
    destruct op; simpl;
      unfold startVisit, completeVisit, cancelVisit; rewrite Hf;
      destruct (status visit) eqn:Hs; simpl; try reflexivity;
      apply K; try reflexivity; assumption.
  - intro Hf.
    destruct (findOneOfPatient_found _ _ _ _ Hf) as (Hin & Hid & _).
    unfold transitionOutcome, cancelVisit. rewrite Hf.
    destruct (status visit) eqn:Hs; simpl; try reflexivity;
      apply K; try reflexivity; assumption.
Qed.

(** ** Creating a visit *)

Lemma hasActiveVisit_true doctorId db :
  hasActiveVisit doctorId db = true <->
  exists v, In v (visits db) /\ doctor v = doctorId
            /\ (status v = scheduled \/ status v = in_progress).
Proof.
  unfold hasActiveVisit. split.
  - destruct (find _ (visits db)) as [v |] eqn:E; [| discriminate].
    intros _. apply find_some in E as [Hin H].
    apply andb_prop in H as [Hd Hs]. apply N.eqb_eq in Hd.
    exists v. repeat split; auto.
    destruct (status v); auto; discriminate.
  - intros (v & Hin & Hd & Hs).
    destruct (find _ (visits db)) as [w |] eqn:E; [reflexivity |].
    pose proof (find_none _ _ E v Hin) as F. simpl in F.
    rewrite Hd, N.eqb_refl in F.
    destruct Hs as [Hs | Hs]; rewrite Hs in F; discriminate.
Qed.

Lemma length_string_of_list (l : list ascii) :
  String.length (string_of_list_ascii l) = List.length l.
Proof. induction l; simpl; congruence. Qed.

Lemma length_list_of_string (s : string) :
  List.length (list_ascii_of_string s) = String.length s.
Proof. induction s; simpl; congruence. Qed.

Lemma length_reverse (s : string) : String.length (reverse s) = String.length s.
Proof.
  unfold reverse.
  now rewrite length_string_of_list, length_rev, length_list_of_string.
Qed.

Lemma length_trim_start (s : string) :
  (String.length (trim_start s) <= String.length s)%nat.
Proof.
  induction s as [| c s IH]; simpl; [lia |].
  destruct (is_space c); simpl; lia.
Qed.

Lemma length_trim (s : string) :
  (String.length (trim s) <= String.length s)%nat.
Proof.
  unfold trim. rewrite length_reverse.
  eapply Nat.le_trans; [apply length_trim_start |].
  rewrite length_reverse. apply length_trim_start.
Qed.

Lemma findById_app_fresh id w vs users' :
  find (fun v => N.eqb (_id v) id) vs = None -> _id w = id ->
  findById id {| visits := vs ++ [w]; users := users' |} = Some w.
Proof.
  intros Hn Hw. unfold findById. simpl.
  induction vs as [| x vs IH]; simpl in *.
  - now rewrite Hw, N.eqb_refl.
  - destruct (N.eqb (_id x) id); [discriminate | auto].
Qed.

(** C9.  Creating a visit answers [ValidationError] when
    [scheduledDate] is in the past; [ConflictError] when the request is
    valid and the active doctor it names already has a visit that is
    scheduled or in progress; and otherwise stores and returns a new
    visit with status scheduled, [totalAmount] 0 and payment status
    pending. *)
Theorem postVisit_outcomes now fresh patientId body db :
  (forall date,
      b_scheduledDate body = Some date -> date < now ->
      postVisit now fresh patientId body db = (Failure ValidationError, db))
  /\ (forall body' doctorId doctor' v,
         createVisitValidation now body = inr body' ->
         b_doctorId body = Some doctorId ->
         findActiveDoctor doctorId db = Some doctor' ->
         In v (visits db) -> doctor v = doctorId ->
         status v = scheduled \/ status v = in_progress ->
         postVisit now fresh patientId body db = (Failure ConflictError, db))
  /\ (forall body' doctorId doctor',
         createVisitValidation now body = inr body' ->
         b_doctorId body = Some doctorId ->
         findActiveDoctor doctorId db = Some doctor' ->
         hasActiveVisit doctorId db = false ->
         findById fresh db = None ->
         exists w,
           postVisit now fresh patientId body db
           = (Success 201 (Some w), with_visits (visits db ++ [w]) db)
           /\ status w = scheduled /\ totalAmount w = zero
           /\ paymentStatus w = pending
           /\ _id w = fresh /\ patient w = patientId /\ doctor w = doctorId
           /\ b_scheduledDate body = Some (scheduledDate w)
           /\ treatments w = []).
Proof.
  unfold postVisit. repeat split.
  - intros date Hd Hlt. unfold createVisitValidation. rewrite Hd.
    apply Z.ltb_lt in Hlt. rewrite Hlt. now destruct (b_doctorId body).
  - intros body' doctorId doctor' v Hval Hdoc Hfind Hin Hdv Hst.
    rewrite Hval. unfold createVisit.
    assert (Hb : b_doctorId body' = Some doctorId).
    { unfold createVisitValidation in Hval. rewrite Hdoc in Hval.
      destruct (b_scheduledDate body); [| discriminate].
      destruct (_ <? _); [discriminate |].
      destruct (optional _ _); [| discriminate].
      injection Hval as <-. reflexivity. }
    rewrite Hb, Hfind. simpl.
    replace (hasActiveVisit doctorId db) with true; [reflexivity |].
    symmetry. apply hasActiveVisit_true. eauto.
  - intros body' doctorId doctor' Hval Hdoc Hfind Hact Hfresh.
    rewrite Hval. unfold createVisit.
    unfold createVisitValidation in Hval. rewrite Hdoc in Hval.
    destruct (b_scheduledDate body) as [date |] eqn:Hdate; [| discriminate].
    destruct (date <? now); [discriminate |].
    destruct (optional _ (b_chiefComplaint body)) eqn:Hlen; [| discriminate].
    injection Hval as <-. simpl. rewrite Hfind. simpl. rewrite Hact.
    unfold saveAndRespond, save.
    assert (Hv : validateVisit
                   (doc (newVisit fresh patientId doctorId date
                           (option_map trim (b_chiefComplaint body)))) = true).
    { unfold validateVisit. simpl.
      destruct (b_chiefComplaint body) as [c |]; simpl; [| reflexivity].
      simpl in Hlen. rewrite !andb_true_r.
      apply Nat.leb_le. apply Nat.leb_le in Hlen.
      eapply Nat.le_trans; [apply length_trim | exact Hlen]. }
    rewrite Hv.
    set (w := doc (visitPreSave (timestampsPreSave now (treatmentsPreSave
                 (newVisit fresh patientId doctorId date
                    (option_map trim (b_chiefComplaint body))))))).
    exists w.
    assert (Hp : persist (visitPreSave (timestampsPreSave now (treatmentsPreSave
                   (newVisit fresh patientId doctorId date
                      (option_map trim (b_chiefComplaint body)))))) db
                 = with_visits (visits db ++ [w]) db) by reflexivity.
    rewrite Hp.
    assert (Hf : findById fresh (with_visits (visits db ++ [w]) db) = Some w).
    { apply findById_app_fresh; [exact Hfresh | reflexivity]. }
    change (_id (doc (newVisit fresh patientId doctorId date
               (option_map trim (b_chiefComplaint body))))) with fresh.
    rewrite Hf. repeat split; reflexivity.
Qed.

(** ** Payment status *)

Lemma parsePaymentStatus_name (raw : option string) (p : PaymentStatus) :
  parsePaymentStatus raw = Some p <-> raw = Some (paymentStatus_name p).
Proof.
  unfold parsePaymentStatus. split.
  - destruct raw as [s |]; [| discriminate].
    destruct (String.eqb_spec s "pending"); [intro H; injection H as <-; now subst |].
    destruct (String.eqb_spec s "partial"); [intro H; injection H as <-; now subst |].
    destruct (String.eqb_spec s "paid"); [intro H; injection H as <-; now subst |].
    discriminate.
  - intros ->. now destruct p.
Qed.

Lemma replaceOne_split (id : ObjectId) (v w : Visit) (vs : list Visit) :
  find (fun x => N.eqb (_id x) id) vs = Some v -> _id w = id ->
  exists l1 l2, vs = l1 ++ v :: l2 /\ replaceOne w vs = l1 ++ w :: l2.
Proof.
  intros Hf Hw. induction vs as [| x vs IH]; simpl in *; [discriminate |].
  rewrite Hw. destruct (N.eqb (_id x) id) eqn:E.
  - injection Hf as ->. exists [], vs. auto.
  - destruct (IH Hf) as (l1 & l2 & -> & ->). exists (x :: l1), l2. auto.
Qed.

Lemma paymentStatus_eqb_eq (a b : PaymentStatus) :
  paymentStatus_eqb a b = true -> a = b.
Proof. destruct a, b; simpl; congruence. Qed.

(** C10.  [updatePaymentStatus] answers a validation error when the
    value sent is none of pending, partial, paid, and [NotFoundError]
    when no visit has the id, the store being returned as it was in both
    cases; otherwise it succeeds whatever the status of the visit, and
    the stored visit differs from the one before in [paymentStatus] and
    [updatedAt] only, every other visit staying in place. *)
Theorem updatePaymentStatus_outcomes now id raw db :
  ((forall p, raw <> Some (paymentStatus_name p)) ->
   updatePaymentStatus now id raw db = (Failure ValidationError, db))
  /\ (forall p,
         raw = Some (paymentStatus_name p) -> findById id db = None ->
         updatePaymentStatus now id raw db = (Failure NotFoundError, db))
  /\ (forall p visit,
         raw = Some (paymentStatus_name p) -> findById id db = Some visit ->
         validateVisit visit = true -> pricesDerived (treatments visit) ->
         exists t l1 l2,
           let w := with_updatedAt t (with_paymentStatus p visit) in
           updatePaymentStatus now id raw db
           = (Success 200 (Some w), with_visits (l1 ++ w :: l2) db)
           /\ visits db = l1 ++ visit :: l2
           /\ (t = now \/ t = updatedAt visit)).
Proof.
  unfold updatePaymentStatus. repeat split.
  - intro H. destruct (parsePaymentStatus raw) as [p |] eqn:E; [| reflexivity].
    apply parsePaymentStatus_name in E. now apply H in E.
  - intros p Hr Hf. apply parsePaymentStatus_name in Hr. now rewrite Hr, Hf.
  - intros p visit Hr Hf Hv Hp. apply parsePaymentStatus_name in Hr.
    rewrite Hr, Hf.
    destruct (findById_found _ _ _ Hf) as (Hin & Hid).
    set (d := set_path (negb (paymentStatus_eqb (paymentStatus visit) p))
                       (with_paymentStatus p) (hydrate visit)).
    destruct (saveAndRespond_valid 200 now d db visit Hin eq_refl eq_refl Hv)
      as [E _].
    rewrite E.
    assert (Hw : exists t, saved now d = with_updatedAt t (with_paymentStatus p visit)
                           /\ (t = now \/ t = updatedAt visit)).
    { unfold saved, d, visitPreSave, timestampsPreSave, treatmentsPreSave,
        set_treatments, set_path, isModified, hydrate. simpl.
      rewrite (pricesDerived_not_stale _ Hp).
      rewrite (treatmentsPreSave_fresh _ (pricesDerived_not_stale _ Hp)). simpl.
      destruct (paymentStatus_eqb (paymentStatus visit) p) eqn:Ep; simpl.
      - exists (updatedAt visit). split; [| auto].
        apply paymentStatus_eqb_eq in Ep. subst p. now destruct visit.
      - exists now. split; [| auto]. now destruct visit. }
    destruct Hw as (t & Hw & Ht). rewrite Hw.
    destruct (replaceOne_split id visit (with_updatedAt t (with_paymentStatus p visit))
                (visits db) Hf Hid) as (l1 & l2 & Hsplit & Hrep).
    exists t, l1, l2. simpl. rewrite Hrep. auto.
Qed.

(** ** The sort stage *)

Section InsertionSort.

Context {A : Type} (le : A -> A -> bool).




Hypothesis le_total : forall a b, le a b = true \/ le b a = true.



End InsertionSort.



(** *** The BSON order is total *)





(** ** Pages *)



(** ** The finance search *)

Section SearchFacts.

Variable regexTest : string -> string -> bool.






(** The statistics never look at the name filters, the page or the limit. *)
Lemma searchVisits_statistics q db r m :
  searchVisits regexTest q db = inr r -> buildQuery q = inr m ->
  statistics r = groupStatistics (filter (matches m) (visits db)).
Proof.
  unfold searchVisits. intros H Hb. rewrite Hb in H.
  destruct (_ || _); [discriminate |]. now injection H as <-.
Qed.

End SearchFacts.


(** C5 at a failing input.  With [patientName=alice] only Alice's visit
    passes the filters and [total] is 1, yet the statistics are those of
    both stored visits: they count two completed visits and one paid
    visit, where the filtered set has one completed visit and none
    paid. *)
Lemma statistics_ignore_name_filter :
  exists r,
    searchVisits containsIgnoreCase Sample.aliceQuery Sample.financeDb = inr r
    /\ map r_visit (items r) = [Sample.aliceVisit]
    /\ total r = 1
    /\ statistics r = groupStatistics [Sample.aliceVisit; Sample.bobVisit]
    /\ statistics r <> groupStatistics [Sample.aliceVisit]
    /\ completedVisits (statistics r) = 2
    /\ paidVisits (statistics r) = 1.
Proof.
  eexists. split; [vm_compute; reflexivity |].
  repeat split; try (vm_compute; reflexivity).
  vm_compute. discriminate.
Qed.

(** ** Rounding, and cycles of mutations *)

Lemma nonneg_geb_zero (x : number) : nonneg x = true -> geb x zero = true.
Proof.
  destruct x as [[] | [] | | [] m e]; simpl; intro H;
    try discriminate; reflexivity.
Qed.

Lemma filter_absent (treatmentId : ObjectId) (ts : list Treatment) :
  treatmentById treatmentId ts = None ->
  filter (fun t => negb (N.eqb (t_id t) treatmentId)) ts = ts.
Proof.
  unfold treatmentById. induction ts as [| t ts IH]; simpl; [reflexivity |].
  destruct (N.eqb (t_id t) treatmentId); [discriminate |].
  intro H. simpl. now rewrite IH.
Qed.

Lemma find_replaceOne_doctor id doctorId (v w : Visit) (vs : list Visit) :
  find (fun x => N.eqb (_id x) id) vs = Some v ->
  _id w = id -> doctor w = doctorId ->
  find (fun x => N.eqb (_id x) id && N.eqb (doctor x) doctorId)
       (replaceOne w vs) = Some w.
Proof.
  intros Hf Hi Hd. induction vs as [| x vs IH]; simpl in *; [discriminate |].
  rewrite Hi. destruct (N.eqb (_id x) id) eqn:E; simpl.
  - now rewrite Hi, Hd, !N.eqb_refl.
  - rewrite E. simpl. auto.
Qed.

Lemma addTreatment_success now fresh id doctorId body db code payload db1 :
  addTreatment now fresh id doctorId body db = (Success code payload, db1) ->
  exists visit t,
    findOneOfDoctor id doctorId db = Some visit
    /\ terminal (status visit) = false
    /\ t_id t = fresh
    /\ totalPrice t = mul (unitPrice t) (quantity t)
    /\ validateVisit (doc (calculateTotalAmount (push t (hydrate visit)))) = true
    /\ payload = Some (saved now (calculateTotalAmount (push t (hydrate visit))))
    /\ db1 = with_visits
               (replaceOne (saved now (calculateTotalAmount (push t (hydrate visit))))
                           (visits db)) db.
Proof.
  unfold addTreatment.
  destruct (findOneOfDoctor id doctorId db) as [visit |] eqn:Hf; [| discriminate].
  destruct (terminal (status visit)) eqn:Ht; [discriminate |].
  intro H. destruct (findOneOfDoctor_found _ _ _ _ Hf) as (Hin & Hid & _).
  match type of H with
  | saveAndRespond _ _ (calculateTotalAmount (push ?t _)) _ = _ =>
      destruct (saveAndRespond_loaded 201 now
                  (calculateTotalAmount (push t (hydrate visit))) db visit
                  _ _ Hin eq_refl eq_refl H)
        as [(E & _) | (E & _ & Hdb & Hv)]; [discriminate |];
      exists visit, t
  end.
  injection E as -> ->. repeat split; auto.
Qed.

(** C8, amended.  Money is held in binary64 Numbers: the [totalPrice]
    of a treatment is the rounded product of its [unitPrice] and
    [quantity], and [totalAmount] the rounded left-to-right sum of the
    [totalPrice] values.  Both are computed afresh from the treatments at
    every mutation, so cycles accumulate no drift: adding a treatment and
    removing it again restores the treatments and the total of the
    visit. *)
Theorem add_then_remove_restores
    now now' fresh id doctorId body db visit payload db1 :
  findOneOfDoctor id doctorId db = Some visit ->
  findById id db = Some visit ->
  pricesDerived (treatments visit) ->
  treatmentById fresh (treatments visit) = None ->
  addTreatment now fresh id doctorId body db = (Success 201 payload, db1) ->
  (exists w1 t,
      payload = Some w1
      /\ treatments w1 = treatments visit ++ [t]
      /\ totalPrice t = mul (unitPrice t) (quantity t)
      /\ totalAmount w1 = sumOfTotalPrice (treatments visit ++ [t]))
  /\ (exists w2,
         fst (deleteTreatment now' id fresh doctorId db1) = Success 200 (Some w2)
         /\ treatments w2 = treatments visit
         /\ totalAmount w2 = sumOfTotalPrice (treatments visit)).
Proof.
  intros Hf Hfid Hp Hfresh Hadd.
  destruct (addTreatment_success _ _ _ _ _ _ _ _ _ Hadd)
    as (visit' & t & Hf' & Hterm & Htid & Ht & Hv & -> & ->).
  rewrite Hf in Hf'. injection Hf' as <-.
  destruct (findOneOfDoctor_found _ _ _ _ Hf) as (Hin & Hid & Hdoc).
  set (d1 := calculateTotalAmount (push t (hydrate visit))) in *.
  set (w1 := saved now d1).
  assert (Hd1 : pricesDerived (treatments visit ++ [t]))
    by (now apply pricesDerived_app).
  assert (Hts1 : treatments w1 = treatments visit ++ [t]).
  { unfold w1. rewrite saved_treatments.
    apply treatmentsPreSave_fresh, pricesDerived_not_stale, Hd1. }
  assert (Hval1 : forallb validateTreatment (treatments visit ++ [t]) = true)
    by apply (validateVisit_treatments _ Hv).
  assert (Hta1 : totalAmount w1 = sumOfTotalPrice (treatments visit ++ [t])).
  { unfold w1, d1. rewrite saved_after_calculate. fold d1. fold w1.
    rewrite Hts1. now apply sumTotalPrice_plain, validateTreatment_price. }
  split.
  - exists w1, t. auto.
  - pose proof (saved_core now d1) as Hc. fold w1 in Hc.
    assert (Hf1 : findOneOfDoctor id doctorId
                    (with_visits (replaceOne w1 (visits db)) db) = Some w1).
    { unfold findOneOfDoctor, with_visits. simpl.
      apply (find_replaceOne_doctor id doctorId visit);
        [ exact Hfid
        | rewrite (core_id _ _ Hc); exact Hid
        | rewrite (core_doctor _ _ Hc); exact Hdoc ]. }
    unfold deleteTreatment. rewrite Hf1.
    rewrite (core_status _ _ Hc). change (status (doc d1)) with (status visit).
    rewrite Hterm.
    set (d2 := calculateTotalAmount (pull fresh (hydrate w1))).
    assert (Hts2 : treatments (doc d2) = treatments visit).
    { change (treatments (doc d2))
        with (filter (fun x => negb (N.eqb (t_id x) fresh)) (treatments w1)).
      rewrite Hts1, filter_app, (filter_absent _ _ Hfresh). simpl.
      rewrite Htid, N.eqb_refl. simpl. apply app_nil_r. }
    assert (Hval : forallb validateTreatment (treatments visit) = true).
    { rewrite forallb_app in Hval1. now apply andb_prop in Hval1 as [H _]. }
    assert (Hplain : sumTotalPrice (treatments visit)
                     = sumOfTotalPrice (treatments visit))
      by now apply sumTotalPrice_plain, validateTreatment_price.
    assert (Hta2 : totalAmount (doc d2) = sumOfTotalPrice (treatments visit)).
    { change (totalAmount (doc d2))
        with (sumTotalPrice (treatments (doc d2))).
      now rewrite Hts2. }
    assert (Hv2 : validateVisit (doc d2) = true).
    { unfold validateVisit in *. rewrite Hts2, Hval, Hta2.
      rewrite (nonneg_geb_zero _ (sumOfTotalPrice_nonneg _
                 (validateTreatment_price _ Hval))).
      change (chiefComplaint (doc d2)) with (chiefComplaint w1).
      change (diagnosis (doc d2)) with (diagnosis w1).
      change (notes (doc d2)) with (notes w1).
      rewrite (core_chiefComplaint _ _ Hc), (core_diagnosis _ _ Hc),
        (core_notes _ _ Hc).
      change (chiefComplaint (doc d1)) with (chiefComplaint visit) in *.
      change (diagnosis (doc d1)) with (diagnosis visit) in *.
      change (notes (doc d1)) with (notes visit) in *.
      apply andb_prop in Hv as [Hv _]. apply andb_prop in Hv as [Hv _].
      now rewrite Hv. }
    assert (Hin1 : In w1 (visits (with_visits (replaceOne w1 (visits db)) db))).
    { apply findOneOfDoctor_found in Hf1. tauto. }
    destruct (saveAndRespond_valid 200 now' d2 _ w1 Hin1 eq_refl eq_refl Hv2)
      as [E _].
    rewrite E. simpl. exists (saved now' d2). split; [reflexivity |].
    assert (Hts3 : treatments (saved now' d2) = treatments visit).
    { rewrite saved_treatments, Hts2.
      apply treatmentsPreSave_fresh, pricesDerived_not_stale, Hp. }
    split; [exact Hts3 |].
    unfold d2. rewrite saved_after_calculate. fold d2. now rewrite Hts3.
Qed.

(** C8 fails as stated.  Three units at 0.1 are stored with a
    [totalPrice] that is not the Number 0.3, not the exact product of
    the stored operands and not 3/10; and treatments priced 0.1 and 0.2
    give a [totalAmount] that is not the Number 0.3. *)
Lemma tenths_are_not_exact :
  (exists w t qp qu,
      payloadOf (fst (postTreatment 1100 200%N 100%N 10%N Sample.swab
                        Sample.scheduledDb)) = Some w
      /\ treatments w = [t]
      /\ unitPrice t = ofDecimal 1 1 /\ quantity t = ofZ 3
      /\ totalPrice t <> ofDecimal 3 1
      /\ toQ (totalPrice t) = Some qp /\ toQ (unitPrice t) = Some qu
      /\ ~ (qp == qu * (3 # 1))%Q
      /\ ~ (qp == 3 # 10)%Q)
  /\ (exists w,
         payloadOf (fst (postTreatment 1200 201%N 100%N 10%N Sample.wipe
                      (snd (postTreatment 1100 200%N 100%N 10%N Sample.tenth
                              Sample.scheduledDb)))) = Some w
         /\ map unitPrice (treatments w) = [ofDecimal 1 1; ofDecimal 2 1]
         /\ map quantity (treatments w) = [ofZ 1; ofZ 1]
         /\ totalAmount w <> ofDecimal 3 1).
Proof.
  split.
  - do 4 eexists. split; [vm_compute; reflexivity |].
    split; [reflexivity |]. split; [vm_compute; reflexivity |].
    split; [vm_compute; reflexivity |].
    split; [vm_compute; discriminate |].
    split; [vm_compute; reflexivity |]. split; [vm_compute; reflexivity |].
    split; intro H; vm_compute in H; discriminate.
  - eexists. split; [vm_compute; reflexivity |].
    split; [vm_compute; reflexivity |]. split; [vm_compute; reflexivity |].
    vm_compute. discriminate.
Qed.

(** ** Every reachable store is well formed *)

Lemma Forall_replaceOne (P : Visit -> Prop) (w : Visit) (vs : list Visit) :
  Forall P vs -> P w -> Forall P (replaceOne w vs).
Proof.
  intros H Hw. induction H as [| x vs Hx Hvs IH]; simpl; [constructor |].
  destruct (N.eqb (_id x) (_id w)); constructor; auto.
Qed.

(** What [save] needs from the document to write a well-formed visit:
    derived prices, and a total that is the code's sum of them. *)
Lemma saved_wellFormed now d :
  validateVisit (doc d) = true ->
  pricesDerived (treatments (doc d)) ->
  totalAmount (doc d) = sumTotalPrice (treatments (doc d)) ->
  wellFormed (saved now d).
Proof.
  intros Hv Hp Ht.
  assert (Hts : treatments (saved now d) = treatments (doc d)).
  { rewrite saved_treatments.
    apply treatmentsPreSave_fresh, pricesDerived_not_stale, Hp. }
  assert (Hval : forallb validateTreatment (treatments (doc d)) = true)
    by apply (validateVisit_treatments _ Hv).
  assert (Hplain : sumTotalPrice (treatments (doc d))
                   = sumOfTotalPrice (treatments (doc d)))
    by now apply sumTotalPrice_plain, validateTreatment_price.
  assert (Hta : totalAmount (saved now d) = sumOfTotalPrice (treatments (doc d))).
  { rewrite saved_totalAmount.
    rewrite (treatmentsPreSave_fresh _ (pricesDerived_not_stale _ Hp)).
    destruct (_ || _); congruence. }
  pose proof (saved_core now d) as Hc.
  repeat split.
  - unfold validateVisit in *. rewrite Hts, Hta, Hval.
    rewrite (core_chiefComplaint _ _ Hc), (core_diagnosis _ _ Hc),
      (core_notes _ _ Hc).
    rewrite (nonneg_geb_zero _ (sumOfTotalPrice_nonneg _
               (validateTreatment_price _ Hval))).
    apply andb_prop in Hv as [Hv _]. apply andb_prop in Hv as [Hv _].
    now rewrite Hv.
  - now rewrite Hts.
  - now rewrite Hts.
Qed.

Lemma saveAndRespond_wellFormed code now d db :
  Forall wellFormed (visits db) ->
  pricesDerived (treatments (doc d)) ->
  totalAmount (doc d) = sumTotalPrice (treatments (doc d)) ->
  Forall wellFormed (visits (snd (saveAndRespond code now d db))).
Proof.
  intros Hdb Hp Ht. unfold saveAndRespond, save.
  destruct (validateVisit (doc d)) eqn:Hv; simpl; [| exact Hdb].
  pose proof (saved_wellFormed now d Hv Hp Ht) as Hw.
  unfold persist. fold (saved now d) in *.
  destruct (isNew _); simpl.
  - apply Forall_app. split; [exact Hdb | now constructor].
  - now apply Forall_replaceOne.
Qed.

(** An untouched ledger of a well-formed visit meets the condition. *)
Lemma wellFormed_total (v : Visit) :
  wellFormed v -> totalAmount v = sumTotalPrice (treatments v).
Proof.
  intros (Hv & _ & Ht). rewrite Ht. symmetry.
  apply sumTotalPrice_plain, validateTreatment_price.
  apply (validateVisit_treatments _ Hv).
Qed.

Lemma wellFormed_found (P : Visit -> bool) (db : Db) (v : Visit) :
  Forall wellFormed (visits db) -> find P (visits db) = Some v -> wellFormed v.
Proof.
  intros H Hf. apply find_some in Hf as [Hin _].
  rewrite Forall_forall in H. auto.
Qed.

(** No handler breaks well-formedness of the stored visits. *)
Theorem handle_preserves_wellFormed now r db :
  Forall wellFormed (visits db) ->
  Forall wellFormed (visits (snd (handle now r db))).
Proof.
  intro Hdb.
  destruct r as [fresh patientId body | id doctorId body | id doctorId op
                 | id userId role | id doctorId op | id p]; simpl.
  - (* createVisit *)
    unfold createVisit.
    destruct (match b_doctorId body with Some _ => _ | None => _ end);
      [| exact Hdb].
    destruct (hasActiveVisit _ db); [exact Hdb |].
    destruct (b_scheduledDate body); [| exact Hdb].
    apply saveAndRespond_wellFormed; [exact Hdb | constructor | reflexivity].
  - (* updateVisit *)
    unfold updateVisit.
    destruct (findOneOfDoctor id doctorId db) as [v |] eqn:Hf; [| exact Hdb].
    pose proof (wellFormed_found _ _ _ Hdb Hf) as Hw.
    destruct (terminal (status v)); [exact Hdb |].
    apply saveAndRespond_wellFormed; [exact Hdb | |];
      unfold assignText;
      destruct (b_diagnosis body), (b_notes body), (b_complaint body); simpl;
      solve [apply Hw | apply (wellFormed_total _ Hw)].
  - (* start, complete, cancel by the doctor *)
    destruct op; simpl; unfold startVisit, completeVisit, cancelVisit;
      destruct (findOneOfDoctor id doctorId db) as [v |] eqn:Hf;
      try exact Hdb;
      pose proof (wellFormed_found _ _ _ Hdb Hf) as Hw;
      repeat match goal with
             | |- context [if ?c then _ else _] => destruct c; try exact Hdb
             end;
      (apply saveAndRespond_wellFormed;
       [exact Hdb | apply Hw | apply (wellFormed_total _ Hw)]).
  - (* cancelVisit *)
    unfold cancelVisit. destruct role; try exact Hdb.
    + destruct (findOneOfPatient id userId db) as [v |] eqn:Hf;
        [| exact Hdb].
      pose proof (wellFormed_found _ _ _ Hdb Hf) as Hw.
      repeat match goal with
             | |- context [if ?c then _ else _] => destruct c; try exact Hdb
             end.
      apply saveAndRespond_wellFormed;
        [exact Hdb | apply Hw | apply (wellFormed_total _ Hw)].
    + destruct (findOneOfDoctor id userId db) as [v |] eqn:Hf;
        [| exact Hdb].
      pose proof (wellFormed_found _ _ _ Hdb Hf) as Hw.
      repeat match goal with
             | |- context [if ?c then _ else _] => destruct c; try exact Hdb
             end.
      apply saveAndRespond_wellFormed;
        [exact Hdb | apply Hw | apply (wellFormed_total _ Hw)].
  - (* the ledger *)
    destruct op as [fresh body | tid body | tid]; simpl;
      unfold addTreatment, updateTreatment, deleteTreatment;
      destruct (findOneOfDoctor id doctorId db) as [v |] eqn:Hf;
      try exact Hdb;
      pose proof (wellFormed_found _ _ _ Hdb Hf) as (_ & Hp & _);
      (destruct (terminal (status v)); [exact Hdb |]).
    + apply saveAndRespond_wellFormed; [exact Hdb | | reflexivity].
      simpl. apply pricesDerived_app; [exact Hp | reflexivity].
    + destruct (treatmentById tid (treatments v)); [| exact Hdb].
      apply saveAndRespond_wellFormed; [exact Hdb | | reflexivity].
      simpl. apply pricesDerived_updateById; [exact Hp |].
      apply assignTreatment_derived.
    + apply saveAndRespond_wellFormed; [exact Hdb | | reflexivity].
      simpl. now apply pricesDerived_filter.
  - (* updatePaymentStatus *)
    unfold updatePaymentStatus.
    destruct (parsePaymentStatus p); [| exact Hdb].
    destruct (findById id db) as [v |] eqn:Hf; [| exact Hdb].
    pose proof (wellFormed_found _ _ _ Hdb Hf) as Hw.
    apply saveAndRespond_wellFormed;
      [exact Hdb | apply Hw | apply (wellFormed_total _ Hw)].
Qed.

(** Hence the conditions under which the properties above are stated
    hold of every visit the handlers ever stored. *)
Theorem reachable_wellFormed db :
  reachable db -> Forall wellFormed (visits db).
Proof.
  induction 1 as [people | db now r _ IH | db people _ IH]; simpl.
  - constructor.
  - now apply handle_preserves_wellFormed.
  - exact IH.
Qed.

(** The pill added to the visit that already holds the x-ray. *)
Lemma ledger_totalAmount_is_sum_witness :
  exists w,
    findById 100%N (snd Sample.withXrayAndPill) = Some w
    /\ payloadOf (fst Sample.withXrayAndPill) = Some w
    /\ totalAmount w = sumOfTotalPrice (treatments w).
Proof.
  apply (ledger_totalAmount_is_sum 1200 100%N 10%N (OpAdd 201%N Sample.pill)
           (snd Sample.withXray)
           (match payloadOf (fst Sample.withXray) with
            | Some v => v
            | None => Sample.visitOf 100%N 1%N scheduled 2000
            end)
           201).
  - vm_compute. reflexivity.
  - vm_compute. repeat constructor.
  - vm_compute. reflexivity.
Defined.

(** The x-ray added to a scheduled visit. *)
Lemma totalPrice_is_product_witness :
  exists w,
    findById 100%N (snd Sample.withXray) = Some w
    /\ payloadOf (fst Sample.withXray) = Some w
    /\ pricesDerived (treatments w).
Proof.
  apply (totalPrice_is_product 1100 100%N 10%N (OpAdd 200%N Sample.xray)
           Sample.scheduledDb 201).
  vm_compute. reflexivity.
Defined.

(** The x-ray refused on a completed visit. *)
Lemma ledger_rejected_when_terminal_witness :
  ledger 1500 100%N 10%N (OpAdd 200%N Sample.xray)
         (Sample.db [Sample.visitOf 100%N 1%N completed 2000])
  = (Failure InvalidTransitionError,
     Sample.db [Sample.visitOf 100%N 1%N completed 2000]).
Proof.
  apply (ledger_rejected_when_terminal 1500 100%N 10%N (OpAdd 200%N Sample.xray)
           (Sample.db [Sample.visitOf 100%N 1%N completed 2000])
           (Sample.visitOf 100%N 1%N completed 2000)).
  - reflexivity.
  - reflexivity.
Defined.

(** ** Concrete instances *)

(** C3 fails as stated: completing a scheduled visit succeeds, although
    the table of the specification has no transition from scheduled to
    completed. *)
Lemma complete_from_scheduled_succeeds :
  specTable scheduled (target OpComplete) = false
  /\ exists w,
       lifecycle 1400 100%N 10%N OpComplete Sample.scheduledDb
       = (Success 200 (Some w), Sample.db [w])
       /\ status (Sample.visitOf 100%N 1%N scheduled 2000) = scheduled
       /\ status w = completed.
Proof.
  split; [reflexivity |].
  eexists. split; [vm_compute; reflexivity |]. split; reflexivity.
Qed.

(** The three requests of the doctor on a scheduled visit, and a cancel
    by the patient on a completed one. *)
Lemma lifecycle_follows_guardTable_witness :
  (forall op,
      transitionOutcome (Sample.visitOf 100%N 1%N scheduled 2000) (target op)
        100%N Sample.scheduledDb
        (lifecycle 1300 100%N 10%N op Sample.scheduledDb))
  /\ transitionOutcome (Sample.visitOf 100%N 1%N completed 2000) cancelled
       100%N (Sample.db [Sample.visitOf 100%N 1%N completed 2000])
       (cancelVisit 1300 100%N 1%N role_patient
          (Sample.db [Sample.visitOf 100%N 1%N completed 2000])).
Proof.
  split.
  - apply (lifecycle_follows_guardTable 1300 100%N 10%N Sample.scheduledDb
             (Sample.visitOf 100%N 1%N scheduled 2000)); reflexivity.
  - apply (lifecycle_follows_guardTable 1300 100%N 1%N
             (Sample.db [Sample.visitOf 100%N 1%N completed 2000])
             (Sample.visitOf 100%N 1%N completed 2000)); reflexivity.
Defined.



(** The pill added to the visit with the x-ray, then removed. *)
Lemma add_then_remove_restores_witness :
  exists w2,
    fst (deleteTreatment 1300 100%N 201%N 10%N (snd Sample.withXrayAndPill))
    = Success 200 (Some w2)
    /\ Some (treatments w2)
       = option_map treatments (payloadOf (fst Sample.withXray))
    /\ Some (totalAmount w2)
       = option_map totalAmount (payloadOf (fst Sample.withXray)).
Proof.
  destruct (add_then_remove_restores 1200 1300 201%N 100%N 10%N Sample.pill
              (snd Sample.withXray)
              (match payloadOf (fst Sample.withXray) with
               | Some v => v
               | None => Sample.visitOf 100%N 1%N scheduled 2000
               end)
              (payloadOf (fst Sample.withXrayAndPill))
              (snd Sample.withXrayAndPill))
    as [_ (w2 & H1 & H2 & H3)].
  - vm_compute. reflexivity.
  - vm_compute. reflexivity.
  - vm_compute. repeat constructor.
  - vm_compute. reflexivity.
  - vm_compute. reflexivity.
  - exists w2. split; [exact H1 |]. split.
    + rewrite H2. vm_compute. reflexivity.
    + rewrite H3. vm_compute. reflexivity.
Defined.

(** A booking in the past, one with a busy doctor, and one that is
    accepted. *)
Lemma postVisit_outcomes_witness :
  postVisit 3000 100%N 1%N Sample.booking (Sample.db [])
  = (Failure ValidationError, Sample.db [])
  /\ postVisit 1000 101%N 2%N Sample.booking Sample.scheduledDb
     = (Failure ConflictError, Sample.scheduledDb)
  /\ exists w,
       postVisit 1000 100%N 1%N Sample.booking (Sample.db [])
       = (Success 201 (Some w), Sample.db [w])
       /\ status w = scheduled /\ totalAmount w = zero
       /\ paymentStatus w = pending.
Proof.
  split; [| split].
  - apply (proj1 (postVisit_outcomes 3000 100%N 1%N Sample.booking (Sample.db []))
             2000); [reflexivity | reflexivity].
  - apply (proj1 (proj2 (postVisit_outcomes 1000 101%N 2%N Sample.booking
                           Sample.scheduledDb))
             {| b_doctorId := Some 10%N; b_scheduledDate := Some 2000;
                b_chiefComplaint := Some "cough"%string |}
             10%N Sample.drHo (Sample.visitOf 100%N 1%N scheduled 2000)).
    + reflexivity.
    + reflexivity.
    + reflexivity.
    + simpl. auto.
    + reflexivity.
    + left. reflexivity.
  - destruct (proj2 (proj2 (postVisit_outcomes 1000 100%N 1%N Sample.booking
                              (Sample.db [])))
                {| b_doctorId := Some 10%N; b_scheduledDate := Some 2000;
                   b_chiefComplaint := Some "cough"%string |}
                10%N Sample.drHo eq_refl eq_refl eq_refl eq_refl eq_refl)
      as (w & E & Hs & Ht & Hp & _).
    exists w. auto.
Defined.

(** On a cancelled visit: an unknown value, an unknown id, and a
    payment that is recorded. *)
Lemma updatePaymentStatus_outcomes_witness :
  updatePaymentStatus 5000 100%N (Some "refunded"%string)
    (Sample.db [Sample.visitOf 100%N 1%N cancelled 2000])
  = (Failure ValidationError, Sample.db [Sample.visitOf 100%N 1%N cancelled 2000])
  /\ updatePaymentStatus 5000 7%N (Some "paid"%string)
       (Sample.db [Sample.visitOf 100%N 1%N cancelled 2000])
     = (Failure NotFoundError, Sample.db [Sample.visitOf 100%N 1%N cancelled 2000])
  /\ exists t l1 l2,
       let w := with_updatedAt t
                  (with_paymentStatus paid (Sample.visitOf 100%N 1%N cancelled 2000)) in
       updatePaymentStatus 5000 100%N (Some "paid"%string)
         (Sample.db [Sample.visitOf 100%N 1%N cancelled 2000])
       = (Success 200 (Some w),
          with_visits (l1 ++ w :: l2)
            (Sample.db [Sample.visitOf 100%N 1%N cancelled 2000]))
       /\ visits (Sample.db [Sample.visitOf 100%N 1%N cancelled 2000])
          = l1 ++ Sample.visitOf 100%N 1%N cancelled 2000 :: l2
       /\ (t = 5000 \/ t = updatedAt (Sample.visitOf 100%N 1%N cancelled 2000)).
Proof.
  split; [| split].
  - apply (proj1 (updatePaymentStatus_outcomes 5000 100%N (Some "refunded"%string)
                    (Sample.db [Sample.visitOf 100%N 1%N cancelled 2000]))).
    intros p. destruct p; discriminate.
  - apply (proj1 (proj2 (updatePaymentStatus_outcomes 5000 7%N (Some "paid"%string)
                    (Sample.db [Sample.visitOf 100%N 1%N cancelled 2000]))) paid);
      reflexivity.
  - apply (proj2 (proj2 (updatePaymentStatus_outcomes 5000 100%N (Some "paid"%string)
                    (Sample.db [Sample.visitOf 100%N 1%N cancelled 2000]))) paid
             (Sample.visitOf 100%N 1%N cancelled 2000)).
    + reflexivity.
    + reflexivity.
    + reflexivity.
    + constructor.
Defined.
